(** * Sleng-API: a shallow embedding of [main.go] and its behavioural contract

    The program is a single-user slang dictionary.  One JSON file
    ([slang.json]) holds a user record, a version tag and an ordered list of
    entries; an HTTP API and a console menu both read and rewrite that file.

    Conventions of the embedding.
    - A Go [string] is a sequence of bytes: Rocq's [string].
    - A Go slice is [option (list A)]: [None] is the nil slice, [Some l] a
      non-nil slice with elements [l].  The difference is visible to
      [encoding/json] ([null] against [[]]) and to [omitempty].
    - Go's [int] is 64 bits wide; indices are in [Z].
    - The file system accepts every write (a failed [os.WriteFile] is not
      modelled); reads may find the file missing, unreadable, or holding
      something that is not JSON.
    - [encoding/json] is modelled on JSON values rather than on JSON text:
      the encoder builds a value, the decoder consumes one.
    - The Unicode case tables of package [unicode] (beyond ASCII) are a
      parameter of the development. *)

From Stdlib Require Import String Ascii ZArith List Bool Lia.
Import ListNotations.
Local Open Scope string_scope.
Local Open Scope list_scope.
Local Open Scope Z_scope.

(** ** Bytes of a string *)

Definition byte_of (a : ascii) : Z := Z.of_N (N_of_ascii a).
Definition ascii_of (b : Z) : ascii := ascii_of_N (Z.to_N b).

Definition bytes (s : string) : list Z := map byte_of (list_ascii_of_string s).
Definition str (p : list Z) : string := string_of_list_ascii (map ascii_of p).

Definition between (lo hi b : Z) : bool := (lo <=? b) && (b <=? hi).

(** ** Package [unicode/utf8] *)

Module utf8.

Definition RuneError : Z := 0xFFFD.
Definition RuneSelf : Z := 0x80.
Definition MaxRune : Z := 0x10FFFF.

(** Number of bytes announced by a leading byte (table [first]); 0 marks a
    byte that cannot start a rune. *)
Definition lead (s0 : Z) : nat :=
  if s0 <? 0x80 then 1
  else if s0 <? 0xC2 then 0
  else if s0 <? 0xE0 then 2
  else if s0 <? 0xF0 then 3
  else if s0 <? 0xF5 then 4
  else 0.

(** Accepted range of the second byte (table [acceptRanges]). *)
Definition accept (s0 : Z) : Z * Z :=
  if s0 =? 0xE0 then (0xA0, 0xBF)
  else if s0 =? 0xED then (0x80, 0x9F)
  else if s0 =? 0xF0 then (0x90, 0xBF)
  else if s0 =? 0xF4 then (0x80, 0x8F)
  else (0x80, 0xBF).

Definition cont (b : Z) : bool := between 0x80 0xBF b.

(** [DecodeRuneInString]: the first rune of [p] and its width.  The masks
    and shifts of the Go code are written as the subtractions and products
    they amount to on the accepted byte ranges. *)
Definition DecodeRune (p : list Z) : Z * nat :=
  match p with
  | [] => (RuneError, 0%nat)
  | s0 :: t =>
      match lead s0, t with
      | 1%nat, _ => (s0, 1%nat)
      | 2%nat, s1 :: _ =>
          if between (fst (accept s0)) (snd (accept s0)) s1
          then ((s0 - 0xC0) * 64 + (s1 - 0x80), 2%nat)
          else (RuneError, 1%nat)
      | 3%nat, s1 :: s2 :: _ =>
          if between (fst (accept s0)) (snd (accept s0)) s1 && cont s2
          then ((s0 - 0xE0) * 4096 + (s1 - 0x80) * 64 + (s2 - 0x80), 3%nat)
          else (RuneError, 1%nat)
      | 4%nat, s1 :: s2 :: s3 :: _ =>
          if between (fst (accept s0)) (snd (accept s0)) s1 && cont s2 && cont s3
          then ((s0 - 0xF0) * 262144 + (s1 - 0x80) * 4096
                + (s2 - 0x80) * 64 + (s3 - 0x80), 4%nat)
          else (RuneError, 1%nat)
      | _, _ => (RuneError, 1%nat)
      end
  end.

(** [RuneStart]: the byte is not a continuation byte. *)
Definition RuneStart (b : Z) : bool := negb (cont b).

(** Offset, among at most [n] bytes read backwards, of the first byte that
    can start a rune. *)
Fixpoint back_scan (n : nat) (before : list Z) (k : nat) : option nat :=
  match n, before with
  | S n', b :: rest => if RuneStart b then Some k else back_scan n' rest (S k)
  | _, _ => None
  end.

(** [DecodeLastRuneInString]. *)
Definition DecodeLastRune (p : list Z) : Z * nat :=
  let e := List.length p in
  match rev p with
  | [] => (RuneError, 0%nat)
  | last :: before =>
      if last <? RuneSelf then (last, 1%nat)
      else
        let start :=
          match back_scan 3 before 0 with
          | Some k => (e - 2 - k)%nat
          | None => (e - 5)%nat
          end in
        let '(r, size) := DecodeRune (skipn start p) in
        if (start + size =? e)%nat then (r, size) else (RuneError, 1%nat)
  end.

(** [AppendRune]. *)
Definition EncodeRune (r : Z) : list Z :=
  if between 0 0x7F r then [r]
  else if between 0 0x7FF r then [0xC0 + r / 64; 0x80 + r mod 64]
  else if (r <? 0) || (MaxRune <? r) || between 0xD800 0xDFFF r
  then [0xEF; 0xBF; 0xBD]
  else if r <=? 0xFFFF
  then [0xE0 + r / 4096; 0x80 + (r / 64) mod 64; 0x80 + r mod 64]
  else [0xF0 + r / 262144; 0x80 + (r / 4096) mod 64;
        0x80 + (r / 64) mod 64; 0x80 + r mod 64].

(** The runes of a string as a [range] loop sees them, each with the bytes it
    was read from.  A byte that starts no valid encoding yields
    [RuneError] with width one. *)
Fixpoint runes_from (fuel : nat) (p : list Z) : list (Z * list Z) :=
  match fuel, p with
  | S f, _ :: _ =>
      let '(r, n) := DecodeRune p in
      (r, firstn n p) :: runes_from f (skipn n p)
  | _, _ => []
  end.

Definition runes (p : list Z) : list (Z * list Z) := runes_from (List.length p) p.

Definition bad_rune (x : Z * list Z) : bool :=
  (fst x =? RuneError) && (List.length (snd x) =? 1)%nat.

(** [ValidString]. *)
Definition ValidString (s : string) : bool :=
  forallb (fun x => negb (bad_rune x)) (runes (bytes s)).

End utf8.

(** ** The Unicode tables the program reaches through [strings] *)

Record unicode_tables := {
  (** outcome of the [SimpleFold] orbit walk of [strings.EqualFold] for two
      distinct runes [lo < hi], both outside ASCII *)
  fold_orbit : Z -> Z -> bool;
  (** [unicode.ToLower] on a rune outside ASCII *)
  lower_case : Z -> Z
}.

(** ** Package [strings] *)

Module strings.

Definition asciiSpace (c : Z) : bool :=
  (c =? 9) || (c =? 10) || (c =? 11) || (c =? 12) || (c =? 13) || (c =? 32).

(** [unicode.IsSpace]: the White_Space property. *)
Definition IsSpace (r : Z) : bool :=
  asciiSpace r || (r =? 0x85) || (r =? 0xA0) || (r =? 0x1680)
  || between 0x2000 0x200A r || (r =? 0x2028) || (r =? 0x2029)
  || (r =? 0x202F) || (r =? 0x205F) || (r =? 0x3000).

Fixpoint TrimLeftSpace (fuel : nat) (p : list Z) : list Z :=
  match fuel, p with
  | S f, _ :: _ =>
      let '(r, n) := utf8.DecodeRune p in
      if IsSpace r then TrimLeftSpace f (skipn n p) else p
  | _, _ => p
  end.

(** [lastIndexFunc(s, unicode.IsSpace, false)], scanning [p[0:i]]. *)
Fixpoint lastIndexNotSpace (fuel : nat) (p : list Z) (i : nat) : option nat :=
  match fuel, i with
  | S f, S _ =>
      let '(r, size) := utf8.DecodeLastRune (firstn i p) in
      if IsSpace r then lastIndexNotSpace f p (i - size)%nat
      else Some (i - size)%nat
  | _, _ => None
  end.

(** [TrimRightFunc(s, unicode.IsSpace)]. *)
Definition TrimRightSpace (p : list Z) : list Z :=
  match lastIndexNotSpace (S (List.length p)) p (List.length p) with
  | Some i =>
      let wid :=
        if utf8.RuneSelf <=? nth i p 0
        then snd (utf8.DecodeRune (skipn i p)) else 1%nat in
      firstn (i + wid) p
  | None => []
  end.

(** First loop of [TrimSpace]: skip ASCII blanks; the flag tells that a byte
    outside ASCII stopped the loop. *)
Fixpoint TrimSpace_scan (p : list Z) : bool * list Z :=
  match p with
  | [] => (false, [])
  | c :: t =>
      if utf8.RuneSelf <=? c then (true, p)
      else if asciiSpace c then TrimSpace_scan t
      else (false, p)
  end.

Definition TrimSpace_bytes (p : list Z) : list Z :=
  let '(uni, q) := TrimSpace_scan p in
  if uni then TrimRightSpace (TrimLeftSpace (List.length q) q)
  else
    let '(uni', rq) := TrimSpace_scan (rev q) in
    if uni' then TrimRightSpace (rev rq) else rev rq.

Definition TrimSpace (s : string) : string := str (TrimSpace_bytes (bytes s)).

(** Two ASCII bytes that differ only by letter case, [lo < hi]. *)
Definition asciiFoldPair (lo hi : Z) : bool :=
  between 65 90 lo && (hi =? lo + 32).

Section Fold.
Variable U : unicode_tables.

(** One step of [EqualFold]: do runes [a] and [b] fold together?  For an
    ASCII rune against a rune outside ASCII the orbit walk is decided by
    [asciiFold]: only K, k meet U+212A and S, s meet U+017F. *)
Definition runeFold (a b : Z) : bool :=
  if a =? b then true
  else
    let lo := Z.min a b in
    let hi := Z.max a b in
    if hi <? utf8.RuneSelf then asciiFoldPair lo hi
    else if lo <? utf8.RuneSelf
    then (((lo =? 75) || (lo =? 107)) && (hi =? 0x212A))
         || (((lo =? 83) || (lo =? 115)) && (hi =? 0x17F))
    else fold_orbit U lo hi.

(** The [hasUnicode] loop of [EqualFold]. *)
Fixpoint EqualFold_runes (fuel : nat) (s t : list Z) : bool :=
  match fuel, s with
  | _, [] => match t with [] => true | _ => false end
  | O, _ => false
  | S f, _ =>
      let '(sr, n) := utf8.DecodeRune s in
      match t with
      | [] => false
      | t0 :: t' =>
          let '(tr, rest) :=
            if t0 <? utf8.RuneSelf then (t0, t')
            else let '(r, size) := utf8.DecodeRune t in (r, skipn size t) in
          if runeFold sr tr then EqualFold_runes f (skipn n s) rest else false
      end
  end.

(** The ASCII fast path of [EqualFold]. *)
Fixpoint EqualFold_bytes (s t : list Z) : bool :=
  match s, t with
  | [], [] => true
  | sr :: s', tr :: t' =>
      if (utf8.RuneSelf <=? sr) || (utf8.RuneSelf <=? tr)
      then EqualFold_runes (List.length s) s t
      else if sr =? tr then EqualFold_bytes s' t'
      else if asciiFoldPair (Z.min sr tr) (Z.max sr tr)
      then EqualFold_bytes s' t'
      else false
  | _, _ => false
  end.

Definition EqualFold (s t : string) : bool := EqualFold_bytes (bytes s) (bytes t).

(** [unicode.ToLower]. *)
Definition ToLower_rune (r : Z) : Z :=
  if r <=? 0x7F then (if between 65 90 r then r + 32 else r)
  else lower_case U r.

(** [strings.ToLower]: bytewise on ASCII input, else [Map(unicode.ToLower, s)],
    which re-encodes every rune and drops negative results. *)
Definition ToLower (s : string) : string :=
  let p := bytes s in
  if forallb (fun c => c <? utf8.RuneSelf) p
  then str (map (fun c => if between 65 90 c then c + 32 else c) p)
  else str (flat_map
              (fun x => let r := ToLower_rune (fst x) in
                        if r <? 0 then [] else utf8.EncodeRune r)
              (utf8.runes p)).

End Fold.

(** [TrimPrefix]. *)
Definition TrimPrefix (s prefix : string) : string :=
  if String.prefix prefix s
  then String.substring (String.length prefix)
         (String.length s - String.length prefix)%nat s
  else s.

(** [Split(s, ",")]. *)
Fixpoint Split_comma (p : list Z) : list (list Z) :=
  match p with
  | [] => [[]]
  | c :: t =>
      if c =? 44 then [] :: Split_comma t
      else match Split_comma t with
           | h :: r => (c :: h) :: r
           | [] => [[c]]
           end
  end.

Definition Split (s : string) : list string := map str (Split_comma (bytes s)).

End strings.

(** ** Package [strconv] *)

Module strconv.

Fixpoint digits (acc : Z) (p : list Z) : option Z :=
  match p with
  | [] => Some acc
  | c :: t => if between 48 57 c then digits (acc * 10 + (c - 48)) t else None
  end.

(** The sign and the digits of the argument of [Atoi]. *)
Definition sign_split (p : list Z) : bool * list Z :=
  match p with
  | 45 :: t => (true, t)
  | 43 :: t => (false, t)
  | _ => (false, p)
  end.

(** [Atoi]: an optional sign and one or more decimal digits whose value fits
    [int]; [None] stands for a non-nil error. *)
Definition Atoi (s : string) : option Z :=
  let '(neg, body) := sign_split (bytes s) in
  match body with
  | [] => None
  | _ =>
      match digits 0 body with
      | None => None
      | Some n =>
          let v := if neg then - n else n in
          if between (- 2 ^ 63) (2 ^ 63 - 1) v then Some v else None
      end
  end.

End strconv.

(** ** Go slices *)

Definition slice (A : Type) : Type := option (list A).

Definition elems {A : Type} (s : slice A) : list A :=
  match s with
  | Some l => l
  | None => []
  end.

Definition len {A : Type} (s : slice A) : Z := Z.of_nat (List.length (elems s)).

(** [append(s, x)]. *)
Definition append {A : Type} (s : slice A) (x : A) : slice A :=
  Some (elems s ++ [x]).

(** [append(s[:i-1], s[i:]...)] for a 1-based [i] within bounds. *)
Definition remove_at {A : Type} (s : slice A) (i : Z) : slice A :=
  Some (firstn (Z.to_nat (i - 1)) (elems s) ++ skipn (Z.to_nat i) (elems s)).

(** ** The data model of [main.go] *)

Record SlangEntry := {
  Word : string;
  Meaning : string;
  Example : string;
  Origin : string;
  Synonyms : slice string
}.

Record User := {
  Username : string;
  Password : string
}.

(** The field [User] of the Go struct is [User_] here, the name [User] being
    taken by the record. *)
Record SlangData := {
  User_ : User;
  Version : string;
  Entries : slice SlangEntry
}.

Definition zero_entry : SlangEntry :=
  {| Word := ""; Meaning := ""; Example := ""; Origin := ""; Synonyms := None |}.
Definition zero_user : User := {| Username := ""; Password := "" |}.
Definition zero_data : SlangData :=
  {| User_ := zero_user; Version := ""; Entries := None |}.

Definition set_Entries (d : SlangData) (l : slice SlangEntry) : SlangData :=
  {| User_ := User_ d; Version := Version d; Entries := l |}.
Definition set_User (d : SlangData) (u : User) : SlangData :=
  {| User_ := u; Version := Version d; Entries := Entries d |}.

(** ** Package [encoding/json], on values *)

#[local] Unset Elimination Schemes.

(** A [JString] carries the Go string the decoder yields for the literal. *)
Inductive json :=
| JNull
| JBool (b : bool)
| JNumber (lit : string)
| JString (s : string)
| JArray (l : list json)
| JObject (fields : list (string * json)).

#[local] Set Elimination Schemes.

Module jsonpkg.

(** What the encoder writes for a string comes back from the decoder with
    every byte that starts no valid UTF-8 sequence replaced by U+FFFD. *)
Definition coerce (s : string) : string :=
  str (flat_map
         (fun x => if utf8.bad_rune x then [0xEF; 0xBF; 0xBD] else snd x)
         (utf8.runes (bytes s))).

Definition enc_string (s : string) : json := JString (coerce s).

Definition enc_strings (l : slice string) : json :=
  match l with
  | None => JNull
  | Some l => JArray (map enc_string l)
  end.

(** [map[string]string]: keys in sorted order; the callers below pass them
    sorted. *)
Definition enc_map (m : list (string * string)) : json :=
  JObject (map (fun kv => (fst kv, enc_string (snd kv))) m).

(** The tags of [SlangEntry]: [origin] and [synonyms] carry [omitempty]. *)
Definition enc_entry (e : SlangEntry) : json :=
  JObject
    ([("word", enc_string (Word e));
      ("meaning", enc_string (Meaning e));
      ("example", enc_string (Example e))]
     ++ (if String.eqb (Origin e) "" then [] else [("origin", enc_string (Origin e))])
     ++ (match elems (Synonyms e) with
         | [] => []
         | _ :: _ => [("synonyms", enc_strings (Synonyms e))]
         end)).

Definition enc_entries (l : slice SlangEntry) : json :=
  match l with
  | None => JNull
  | Some l => JArray (map enc_entry l)
  end.

Definition enc_user (u : User) : json :=
  JObject [("username", enc_string (Username u));
           ("password", enc_string (Password u))].

(** [json.MarshalIndent(slangData, "", "  ")], as a value. *)
Definition Marshal (d : SlangData) : json :=
  JObject [("user", enc_user (User_ d));
           ("version", enc_string (Version d));
           ("entries", enc_entries (Entries d))].

(** All-or-nothing decoding of the elements of an array. *)
Fixpoint traverse {A B : Type} (f : A -> option B) (l : list A) : option (list B) :=
  match l with
  | [] => Some []
  | x :: t =>
      match f x, traverse f t with
      | Some y, Some r => Some (y :: r)
      | _, _ => None
      end
  end.

(** Decoding into a string that currently holds [old]: [null] leaves the
    target alone, anything but a string is a type error. *)
Definition dec_string (j : json) (old : string) : option string :=
  match j with
  | JString s => Some s
  | JNull => Some old
  | _ => None
  end.

Definition dec_strings (j : json) : option (slice string) :=
  match j with
  | JNull => Some None
  | JArray l => option_map Some (traverse (fun x => dec_string x "") l)
  | _ => None
  end.

Section Decoder.
Variable U : unicode_tables.
(** [DisallowUnknownFields] *)
Variable strict : bool.

(** The struct field a key selects: the exact name, else a name equal to the
    key under case folding. *)
Definition field_of (names : list string) (key : string) : option string :=
  match find (String.eqb key) names with
  | Some n => Some n
  | None => find (fun n => strings.EqualFold U n key) names
  end.

(** Decoding the members of an object one after the other into a struct
    value.  A member that repeats a key is decoded over the result of the
    earlier one: a string or a struct keeps what [null] leaves alone; for a
    slice the later array stands in place of the earlier one (the reuse of
    the earlier elements' storage by [encoding/json] is not followed). *)
Fixpoint dec_fields {T : Type} (names : list string)
    (set : string -> json -> T -> option T)
    (fields : list (string * json)) (cur : T) : option T :=
  match fields with
  | [] => Some cur
  | (k, v) :: rest =>
      match field_of names k with
      | Some n =>
          match set n v cur with
          | Some cur' => dec_fields names set rest cur'
          | None => None
          end
      | None => if strict then None else dec_fields names set rest cur
      end
  end.

Definition dec_struct {T : Type} (names : list string)
    (set : string -> json -> T -> option T) (j : json) (cur : T) : option T :=
  match j with
  | JNull => Some cur
  | JObject fields => dec_fields names set fields cur
  | _ => None
  end.

Definition entry_fields : list string :=
  ["word"; "meaning"; "example"; "origin"; "synonyms"].

Definition set_entry_field (n : string) (v : json) (e : SlangEntry)
  : option SlangEntry :=
  if String.eqb n "word" then
    option_map (fun s => {| Word := s; Meaning := Meaning e; Example := Example e;
                            Origin := Origin e; Synonyms := Synonyms e |})
               (dec_string v (Word e))
  else if String.eqb n "meaning" then
    option_map (fun s => {| Word := Word e; Meaning := s; Example := Example e;
                            Origin := Origin e; Synonyms := Synonyms e |})
               (dec_string v (Meaning e))
  else if String.eqb n "example" then
    option_map (fun s => {| Word := Word e; Meaning := Meaning e; Example := s;
                            Origin := Origin e; Synonyms := Synonyms e |})
               (dec_string v (Example e))
  else if String.eqb n "origin" then
    option_map (fun s => {| Word := Word e; Meaning := Meaning e; Example := Example e;
                            Origin := s; Synonyms := Synonyms e |})
               (dec_string v (Origin e))
  else
    option_map (fun l => {| Word := Word e; Meaning := Meaning e; Example := Example e;
                            Origin := Origin e; Synonyms := l |})
               (dec_strings v).

Definition dec_entry (j : json) (cur : SlangEntry) : option SlangEntry :=
  dec_struct entry_fields set_entry_field j cur.

Definition dec_entries (j : json) : option (slice SlangEntry) :=
  match j with
  | JNull => Some None
  | JArray l => option_map Some (traverse (fun x => dec_entry x zero_entry) l)
  | _ => None
  end.

Definition user_fields : list string := ["username"; "password"].

Definition set_user_field (n : string) (v : json) (u : User) : option User :=
  if String.eqb n "username" then
    option_map (fun s => {| Username := s; Password := Password u |})
               (dec_string v (Username u))
  else
    option_map (fun s => {| Username := Username u; Password := s |})
               (dec_string v (Password u)).

Definition dec_user (j : json) (cur : User) : option User :=
  dec_struct user_fields set_user_field j cur.

Definition data_fields : list string := ["user"; "version"; "entries"].

Definition set_data_field (n : string) (v : json) (d : SlangData)
  : option SlangData :=
  if String.eqb n "user" then
    option_map (set_User d) (dec_user v (User_ d))
  else if String.eqb n "version" then
    option_map (fun s => {| User_ := User_ d; Version := s; Entries := Entries d |})
               (dec_string v (Version d))
  else
    option_map (set_Entries d) (dec_entries v).

Definition dec_data (j : json) (cur : SlangData) : option SlangData :=
  dec_struct data_fields set_data_field j cur.

End Decoder.

(** [json.Unmarshal(data, &slangData)] into a zero [SlangData]; [None] is a
    non-nil error. *)
Definition Unmarshal (U : unicode_tables) (j : json) : option SlangData :=
  dec_data U false j zero_data.

End jsonpkg.

(** ** The document store: [loadSlangData] and [saveSlangData] *)

(** What a reader finds at [dataFile]. *)
Inductive disk :=
| NoFile
| Unreadable
| NotJSON
| Holds (j : json).

Definition default_data : SlangData :=
  {| User_ := zero_user; Version := "1.0"; Entries := Some [] |}.

Definition loadSlangData (U : unicode_tables) (w : disk) : SlangData :=
  match w with
  | NoFile => default_data
  | Unreadable => default_data
  | NotJSON => default_data
  | Holds j =>
      match jsonpkg.Unmarshal U j with
      | Some slangData => slangData
      | None => default_data
      end
  end.

(** The write is taken to go through; when [os.WriteFile] fails the program
    prints the error and goes on, and the file is not what this says. *)
Definition saveSlangData (slangData : SlangData) (w : disk) : disk :=
  Holds (jsonpkg.Marshal slangData).

(** ** The HTTP API *)

Record request := {
  Method : string;
  (** [r.URL.Path] *)
  Path : string;
  (** the JSON value at the head of the body; [None] when there is none *)
  Body : option json
}.

Inductive payload :=
| Text (msg : string)   (** written by [http.Error] *)
| Json (j : json).      (** written by [respondJSON] *)

Record response := {
  Status : Z;
  Payload : payload
}.

Definition StatusOK : Z := 200.
Definition StatusCreated : Z := 201.
Definition StatusBadRequest : Z := 400.
Definition StatusUnauthorized : Z := 401.
Definition StatusNotFound : Z := 404.
Definition StatusMethodNotAllowed : Z := 405.
Definition StatusConflict : Z := 409.

Definition httpError (msg : string) (code : Z) : response :=
  {| Status := code; Payload := Text msg |}.

Definition respondJSON (code : Z) (j : json) : response :=
  {| Status := code; Payload := Json j |}.

Definition message (msg : string) : json := jsonpkg.enc_map [("message", msg)].

(** The duplicate check shared by both ways of adding: some stored word is
    equal to [word] under case folding. *)
Definition word_exists (U : unicode_tables) (l : slice SlangEntry) (word : string)
  : bool :=
  existsb (fun e => strings.EqualFold U (Word e) word) (elems l).

Section API.
Variable U : unicode_tables.

(** [readJSON] into a [SlangEntry]. *)
Definition readJSON_entry (r : request) : option SlangEntry :=
  match Body r with
  | Some j => jsonpkg.dec_entry U true j zero_entry
  | None => None
  end.

(** [readJSON] into the local struct [Req], which has the fields and tags of
    [User]. *)
Definition readJSON_req (r : request) : option User :=
  match Body r with
  | Some j => jsonpkg.dec_user U true j zero_user
  | None => None
  end.

Definition handleGetEntries (r : request) (w : disk) : response * disk :=
  let slangData := loadSlangData U w in
  (respondJSON StatusOK (jsonpkg.enc_entries (Entries slangData)), w).

Definition handleAddEntry (r : request) (w : disk) : response * disk :=
  match readJSON_entry r with
  | None => (httpError "Неверный JSON" StatusBadRequest, w)
  | Some entry =>
      if String.eqb (strings.TrimSpace (Word entry)) ""
         || String.eqb (strings.TrimSpace (Meaning entry)) ""
      then (httpError "Слово и значение обязательны" StatusBadRequest, w)
      else
        let slangData := loadSlangData U w in
        if word_exists U (Entries slangData) (Word entry)
        then (httpError "Слово уже существует" StatusConflict, w)
        else
          let slangData := set_Entries slangData (append (Entries slangData) entry) in
          (respondJSON StatusCreated (message "Слово добавлено"),
           saveSlangData slangData w)
  end.

Definition handleDeleteEntry (r : request) (w : disk) : response * disk :=
  let indexStr := strings.TrimPrefix (Path r) "/api/entries/" in
  match strconv.Atoi indexStr with
  | None => (httpError "Неверный индекс" StatusBadRequest, w)
  | Some index =>
      if index <? 1 then (httpError "Неверный индекс" StatusBadRequest, w)
      else
        let slangData := loadSlangData U w in
        if len (Entries slangData) <? index
        then (httpError "Слово не найдено" StatusNotFound, w)
        else
          let slangData := set_Entries slangData (remove_at (Entries slangData) index) in
          (respondJSON StatusOK (message "Слово удалено"),
           saveSlangData slangData w)
  end.

Definition handleGetUser (r : request) (w : disk) : response * disk :=
  let slangData := loadSlangData U w in
  if String.eqb (Username (User_ slangData)) ""
  then (httpError "Пользователь не зарегистрирован" StatusUnauthorized, w)
  else (respondJSON StatusOK
          (jsonpkg.enc_map [("username", Username (User_ slangData))]), w).

Definition handleRegister (r : request) (w : disk) : response * disk :=
  match readJSON_req r with
  | None => (httpError "Неверный JSON" StatusBadRequest, w)
  | Some req =>
      if String.eqb (Username req) ""
         || (Z.of_nat (String.length (Password req)) <? 4)
      then (httpError "Логин не может быть пустым, пароль — минимум 4 символа"
              StatusBadRequest, w)
      else
        let slangData := loadSlangData U w in
        if negb (String.eqb (Username (User_ slangData)) "")
        then (httpError "Пользователь уже зарегистрирован" StatusConflict, w)
        else
          let slangData :=
            set_User slangData
              {| Username := Username req; Password := Password req |} in
          (respondJSON StatusCreated (message "Регистрация успешна"),
           saveSlangData slangData w)
  end.

Definition handleLogin (r : request) (w : disk) : response * disk :=
  match readJSON_req r with
  | None => (httpError "Неверный JSON" StatusBadRequest, w)
  | Some req =>
      let slangData := loadSlangData U w in
      if String.eqb (Username (User_ slangData)) ""
      then (httpError "Сначала зарегистрируйтесь" StatusUnauthorized, w)
      else if String.eqb (Username req) (Username (User_ slangData))
              && String.eqb (Password req) (Password (User_ slangData))
      then (respondJSON StatusOK
              (jsonpkg.enc_map [("message", "Успешный вход");
                                ("username", Username (User_ slangData))]), w)
      else (httpError "Неверный логин или пароль" StatusUnauthorized, w)
  end.

(** The routes of [startAPIServer], on the path the mux dispatches on.  A
    path no pattern matches gets the mux's own 404. *)
Definition serve (r : request) (w : disk) : response * disk :=
  if String.eqb (Path r) "/api/entries" then
    if String.eqb (Method r) "GET" then handleGetEntries r w
    else if String.eqb (Method r) "POST" then handleAddEntry r w
    else (httpError "Метод не поддерживается" StatusMethodNotAllowed, w)
  else if String.prefix "/api/entries/" (Path r) then
    if String.eqb (Method r) "DELETE" then handleDeleteEntry r w
    else (httpError "Только DELETE разрешён для этого пути" StatusMethodNotAllowed, w)
  else if String.eqb (Path r) "/api/user" then handleGetUser r w
  else if String.eqb (Path r) "/api/register" then handleRegister r w
  else if String.eqb (Path r) "/api/login" then handleLogin r w
  else (httpError "404 page not found" StatusNotFound, w).

End API.

(** ** The console session *)

(** What the console functions print to report an outcome (prompts are left
    out). *)
Inductive printed :=
| AlreadyRegistered                  (** "Пользователь уже зарегистрирован. Используйте вход." *)
| EmptyLogin                         (** "Логин не может быть пустым" *)
| ShortPassword                      (** "Пароль должен содержать минимум 4 символа" *)
| Registered (username : string)     (** "Пользователь '%s' успешно зарегистрирован!" *)
| RegisterFirst                      (** "Сначала необходимо зарегистрироваться!" *)
| Welcome (username : string) (loaded : Z)  (** "Добро пожаловать, %s!" and the word count *)
| WrongCredentials (left : Z)        (** "Неверный логин или пароль. Осталось попыток: %d" *)
| WrongCredentialsLast               (** "Неверный логин или пароль. Попробуйте начать с главного меню." *)
| WordExists (word : string)         (** "Слово '%s' уже есть в словаре" *)
| WordAdded (word : string)          (** "Отлично! Слово '%s' добавлено в словарь" *)
| NothingToDelete                    (** "В словаре ничего нет, удалять нечего" *)
| Listing (entries : list SlangEntry)  (** the output of [showAllEntries] *)
| NoSuchNumber                       (** "Нет такого номера" *)
| WordDeleted (word : string)        (** "Слово '%s' удалено" *)
| DeletionCancelled.                 (** "Удаление отменено" *)

(** [reader.ReadString('\n')].  The input is the list of lines as a terminal
    hands them over, one to a read, so that a reader holds no more than the
    line it returns; at the end of the input the result is the empty string
    (the error is dropped by the callers).  A reader fed several lines at
    once would keep them to itself: what a console function leaves of the
    input for the next one is then not what this list says. *)
Definition ReadString (stdin : list string) : string * list string :=
  match stdin with
  | [] => ("", [])
  | line :: rest => (line, rest)
  end.

Section Console.
Variable U : unicode_tables.

Definition register (stdin : list string) (w : disk)
  : bool * list string * disk * list printed :=
  let slangData := loadSlangData U w in
  if negb (String.eqb (Username (User_ slangData)) "")
  then (false, stdin, w, [AlreadyRegistered])
  else
    let '(username, stdin) := ReadString stdin in
    let username := strings.TrimSpace username in
    if String.eqb username "" then (false, stdin, w, [EmptyLogin])
    else
      let '(password, stdin) := ReadString stdin in
      let password := strings.TrimSpace password in
      if Z.of_nat (String.length password) <? 4
      then (false, stdin, w, [ShortPassword])
      else
        let slangData :=
          set_User slangData {| Username := username; Password := password |} in
        (true, stdin, saveSlangData slangData w, [Registered username]).

(** The loop of [login], [attempts] counting down. *)
Fixpoint login_loop (attempts : nat) (slangData : SlangData) (stdin : list string)
  : bool * list string * list printed :=
  match attempts with
  | O => (false, stdin, [])
  | S attempts' =>
      let '(username, stdin) := ReadString stdin in
      let username := strings.TrimSpace username in
      let '(password, stdin) := ReadString stdin in
      let password := strings.TrimSpace password in
      if String.eqb username (Username (User_ slangData))
         && String.eqb password (Password (User_ slangData))
      then (true, stdin, [Welcome username (len (Entries slangData))])
      else
        let said :=
          if (1 <? attempts)%nat
          then WrongCredentials (Z.of_nat attempts - 1)
          else WrongCredentialsLast in
        let '(ok, stdin, out) := login_loop attempts' slangData stdin in
        (ok, stdin, said :: out)
  end.

Definition login (stdin : list string) (w : disk)
  : bool * list string * list printed :=
  let slangData := loadSlangData U w in
  if String.eqb (Username (User_ slangData)) ""
  then (false, stdin, [RegisterFirst])
  else login_loop 3 slangData stdin.

(** [addNewEntry(&slangData)]: the document in memory, the input and the disk
    go in and come out. *)
Definition addNewEntry (slangData : SlangData) (stdin : list string) (w : disk)
  : SlangData * list string * disk * list printed :=
  let '(word, stdin) := ReadString stdin in
  let word := strings.TrimSpace word in
  if word_exists U (Entries slangData) word
  then (slangData, stdin, w, [WordExists word])
  else
    let '(meaning, stdin) := ReadString stdin in
    let '(example, stdin) := ReadString stdin in
    let '(origin, stdin) := ReadString stdin in
    let '(synonyms, stdin) := ReadString stdin in
    let synonyms := strings.TrimSpace synonyms in
    let entry :=
      {| Word := word;
         Meaning := strings.TrimSpace meaning;
         Example := strings.TrimSpace example;
         Origin := strings.TrimSpace origin;
         Synonyms :=
           if String.eqb synonyms "" then None
           else Some (map strings.TrimSpace (strings.Split synonyms)) |} in
    let slangData := set_Entries slangData (append (Entries slangData) entry) in
    (slangData, stdin, saveSlangData slangData w, [WordAdded word]).

(** The test on the answer to "Точно удалить?". *)
Definition confirmed (confirm : string) : bool :=
  String.eqb (strings.ToLower U confirm) "да"
  || String.eqb (strings.ToLower U confirm) "д"
  || String.eqb (strings.ToLower U confirm) "y".

(** [deleteEntry(&slangData)].  [index] is what [fmt.Scanln(&index)] produced
    ([None] for a non-nil error), [confirm] the token the second [Scanln]
    stored; neither is read when the function returns earlier. *)
Definition deleteEntry (slangData : SlangData) (index : option Z)
    (confirm : string) (w : disk) : SlangData * disk * list printed :=
  if len (Entries slangData) =? 0 then (slangData, w, [NothingToDelete])
  else
    let shown := Listing (elems (Entries slangData)) in
    match index with
    | None => (slangData, w, [shown; NoSuchNumber])
    | Some index =>
        if (index <? 1) || (len (Entries slangData) <? index)
        then (slangData, w, [shown; NoSuchNumber])
        else
          let wordToDelete :=
            Word (nth (Z.to_nat (index - 1)) (elems (Entries slangData)) zero_entry) in
          if confirmed confirm then
            let slangData :=
              set_Entries slangData (remove_at (Entries slangData) index) in
            (slangData, saveSlangData slangData w, [shown; WordDeleted wordToDelete])
          else (slangData, w, [shown; DeletionCancelled])
    end.

End Console.

(** ** Vocabulary of the statements *)


(** Documents that [encoding/json] writes and reads back unchanged: every
    string is valid UTF-8 and no entry carries a [Synonyms] slice that is
    empty without being nil. *)
Definition stable_entry (e : SlangEntry) : bool :=
  utf8.ValidString (Word e) && utf8.ValidString (Meaning e)
  && utf8.ValidString (Example e) && utf8.ValidString (Origin e)
  && match Synonyms e with
     | None => true
     | Some [] => false
     | Some l => forallb utf8.ValidString l
     end.

Definition stable_data (d : SlangData) : bool :=
  utf8.ValidString (Username (User_ d)) && utf8.ValidString (Password (User_ d))
  && utf8.ValidString (Version d)
  && forallb stable_entry (elems (Entries d)).



(** The credentials the [k]-th attempt of the console login reads. *)
Definition attempt (stdin : list string) (k : nat) : string * string :=
  (strings.TrimSpace (nth (2 * k) stdin ""),
   strings.TrimSpace (nth (2 * k + 1) stdin "")).

(** ** Sample data *)

(** Tables in which no rune outside ASCII has a case partner.  The samples
    below are evaluated on ASCII text, which never consults the tables. *)
Definition ascii_tables : unicode_tables :=
  {| fold_orbit := fun _ _ => false; lower_case := fun r => r |}.

Definition rizz : SlangEntry :=
  {| Word := "rizz"; Meaning := "charisma"; Example := ""; Origin := "";
     Synonyms := None |}.

Definition sus : SlangEntry :=
  {| Word := "sus"; Meaning := "suspicious"; Example := "that is sus";
     Origin := "gaming"; Synonyms := Some ["shady"] |}.

Definition ann : User := {| Username := "ann"; Password := "secr3t" |}.

Definition sample_data : SlangData :=
  {| User_ := ann; Version := "1.0"; Entries := Some [rizz; sus] |}.

Definition sample_disk : disk := saveSlangData sample_data NoFile.

Definition json_of_entry (word meaning : string) : json :=
  JObject [("word", JString word); ("meaning", JString meaning)].

Definition json_of_credentials (username password : string) : json :=
  JObject [("username", JString username); ("password", JString password)].

Definition delete_request (segment : string) : request :=
  {| Method := "DELETE"; Path := "/api/entries/" ++ segment; Body := None |}.

Definition post (path : string) (body : json) : request :=
  {| Method := "POST"; Path := path; Body := Some body |}.

(** The entry POST /api/entries decodes from a body with ["synonyms": []]. *)
Definition rizz_no_synonyms : SlangEntry :=
  {| Word := "rizz"; Meaning := "charisma"; Example := ""; Origin := "";
     Synonyms := Some [] |}.

Definition spaced_rizz : SlangEntry :=
  {| Word := " rizz"; Meaning := "charisma"; Example := ""; Origin := "";
     Synonyms := None |}.

Definition shouted_rizz : SlangEntry :=
  {| Word := "RIZZ"; Meaning := "charm"; Example := ""; Origin := "";
     Synonyms := None |}.

(** What [ReadString] returns for an empty answer, and for an answer [s]. *)
Definition enter : string := String "010"%char EmptyString.
Definition line (s : string) : string := (s ++ enter)%string.

(** ** Further vocabulary and samples *)

(** The words of a list of entries are pairwise distinct under case folding,
    each word compared with the later ones in the order of the duplicate
    check (stored word first). *)
Fixpoint fold_distinct (U : unicode_tables) (words : list string) : bool :=
  match words with
  | [] => true
  | word :: rest =>
      forallb (fun v => negb (strings.EqualFold U word v)) rest
      && fold_distinct U rest
  end.

Definition words_of (l : slice SlangEntry) : list string := map Word (elems l).

(** What [loadSlangData] finds after [saveSlangData]: every string coerced,
    an empty synonyms slice turned into nil. *)
Definition read_back_entry (e : SlangEntry) : SlangEntry :=
  {| Word := jsonpkg.coerce (Word e);
     Meaning := jsonpkg.coerce (Meaning e);
     Example := jsonpkg.coerce (Example e);
     Origin := jsonpkg.coerce (Origin e);
     Synonyms := match elems (Synonyms e) with
                 | [] => None
                 | l => Some (map jsonpkg.coerce l)
                 end |}.

Definition read_back (d : SlangData) : SlangData :=
  {| User_ := {| Username := jsonpkg.coerce (Username (User_ d));
                 Password := jsonpkg.coerce (Password (User_ d)) |};
     Version := jsonpkg.coerce (Version d);
     Entries := option_map (map read_back_entry) (Entries d) |}.

(** The members of an object that select a field of the struct. *)
Definition known_members (U : unicode_tables) (names : list string)
    (fields : list (string * json)) : list (string * json) :=
  filter (fun kv => match jsonpkg.field_of U names (fst kv) with
                    | Some _ => true
                    | None => false
                    end) fields.

(** The first byte of a list, when it has one, is no ASCII blank. *)
Definition head_not_blank (p : list Z) : Prop :=
  match p with
  | [] => True
  | b :: _ => strings.asciiSpace b = false
  end.

(** A file whose version is a number: [json.Unmarshal] reports a type error. *)
Definition mistyped_disk : disk :=
  Holds (JObject [("user", jsonpkg.enc_user ann);
                  ("version", JNumber "1");
                  ("entries", JArray [jsonpkg.enc_entry rizz])]).

Definition yeet : SlangEntry :=
  {| Word := "yeet"; Meaning := "to throw"; Example := ""; Origin := "";
     Synonyms := None |}.

(** The entry a body with word RIZZ and an empty meaning decodes to. *)
Definition rizz_unexplained : SlangEntry :=
  {| Word := "RIZZ"; Meaning := ""; Example := ""; Origin := "";
     Synonyms := None |}.

(** * Properties *)

(** ** Strings and the JSON round trip *)

Lemma ascii_of_byte_of (a : ascii) : ascii_of (byte_of a) = a.
Proof.
  unfold ascii_of, byte_of. rewrite N2Z.id. apply ascii_N_embedding.
Qed.

Lemma str_bytes (s : string) : str (bytes s) = s.
Proof.
  unfold str, bytes. rewrite map_map.
  rewrite (map_ext _ (fun a => a)) by apply ascii_of_byte_of.
  rewrite map_id. apply string_of_list_ascii_of_string.
Qed.

Lemma DecodeRune_width (c : Z) (p : list Z) :
  (1 <= snd (utf8.DecodeRune (c :: p)) <= List.length (c :: p))%nat.
Proof.
  unfold utf8.DecodeRune.
  destruct (utf8.lead c) as [|[|[|[|[|n]]]]]; cbn [snd List.length]; try lia;
    destruct p as [|s1 [|s2 [|s3 p]]]; cbn [snd List.length]; try lia;
    match goal with
    | |- context [if ?b then _ else _] => destruct b; cbn [snd]; lia
    end.
Qed.

Lemma runes_cover (fuel : nat) :
  forall p, (List.length p <= fuel)%nat ->
  concat (map snd (utf8.runes_from fuel p)) = p.
Proof.
  induction fuel as [|fuel IH]; intros p Hlen.
  - destruct p; [reflexivity | cbn in Hlen; lia].
  - destruct p as [|c p]; [reflexivity|].
    cbn [utf8.runes_from].
    pose proof (DecodeRune_width c p) as Hw.
    destruct (utf8.DecodeRune (c :: p)) as [r n] eqn:E. cbn [snd] in Hw.
    cbn [map concat snd].
    rewrite IH.
    + apply firstn_skipn.
    + rewrite length_skipn. cbn [List.length] in *. lia.
Qed.

Lemma coerce_keeps (l : list (Z * list Z)) :
  forallb (fun x => negb (utf8.bad_rune x)) l = true ->
  flat_map (fun x => if utf8.bad_rune x then [0xEF; 0xBF; 0xBD] else snd x) l
  = concat (map snd l).
Proof.
  induction l as [|x l IH]; intros H.
  - reflexivity.
  - cbn [forallb] in H. apply andb_true_iff in H as [Hx Hl].
    cbn [flat_map map concat]. apply negb_true_iff in Hx. rewrite Hx.
    f_equal. apply IH, Hl.
Qed.

Lemma coerce_valid (s : string) :
  utf8.ValidString s = true -> jsonpkg.coerce s = s.
Proof.
  unfold utf8.ValidString, jsonpkg.coerce, utf8.runes. intros H.
  rewrite coerce_keeps by exact H.
  rewrite runes_cover by lia.
  apply str_bytes.
Qed.

Section RoundTrip.
Variable U : unicode_tables.
Variable strict : bool.

Lemma find_exact (key : string) (names : list string) :
  In key names -> find (String.eqb key) names = Some key.
Proof.
  induction names as [|n names IH]; intros Hin; [destruct Hin|].
  cbn [find]. destruct (String.eqb_spec key n) as [->|Hne]; [reflexivity|].
  destruct Hin as [->|Hin]; [congruence | exact (IH Hin)].
Qed.

Lemma field_of_exact (key : string) (names : list string) :
  In key names -> jsonpkg.field_of U names key = Some key.
Proof.
  intros Hin. unfold jsonpkg.field_of. now rewrite find_exact.
Qed.

Lemma traverse_map {A B : Type} (enc : A -> B) (dec : B -> option A) (ok : A -> bool)
    (l : list A) :
  (forall x, ok x = true -> dec (enc x) = Some x) ->
  forallb ok l = true ->
  jsonpkg.traverse dec (map enc l) = Some l.
Proof.
  intros Hdec. induction l as [|x l IH]; intros Hok; [reflexivity|].
  cbn [forallb] in Hok. apply andb_true_iff in Hok as [Hx Hl].
  cbn [map jsonpkg.traverse]. now rewrite (Hdec x Hx), (IH Hl).
Qed.

Lemma dec_enc_string (s old : string) :
  utf8.ValidString s = true ->
  jsonpkg.dec_string (jsonpkg.enc_string s) old = Some s.
Proof.
  intros H. unfold jsonpkg.enc_string, jsonpkg.dec_string. now rewrite coerce_valid.
Qed.

Lemma dec_enc_user (u cur : User) :
  utf8.ValidString (Username u) = true ->
  utf8.ValidString (Password u) = true ->
  jsonpkg.dec_user U strict (jsonpkg.enc_user u) cur = Some u.
Proof.
  intros Hn Hp. destruct u as [n p]. cbn [Username Password] in *.
  unfold jsonpkg.dec_user, jsonpkg.enc_user, jsonpkg.dec_struct.
  cbn [Username Password jsonpkg.dec_fields].
  rewrite !field_of_exact by (cbn; tauto).
  unfold jsonpkg.set_user_field.
  change (String.eqb "username" "username") with true.
  change (String.eqb "password" "username") with false.
  cbv iota. rewrite (dec_enc_string n _ Hn). cbn [option_map Username Password].
  rewrite (dec_enc_string p _ Hp). reflexivity.
Qed.

Lemma dec_enc_entry (e : SlangEntry) :
  stable_entry e = true ->
  jsonpkg.dec_entry U strict (jsonpkg.enc_entry e) zero_entry = Some e.
Proof.
  destruct e as [w m x o syn]. unfold stable_entry.
  cbn [Word Meaning Example Origin Synonyms].
  rewrite !andb_true_iff. intros [[[[Hw Hm] Hx] Ho] Hs].
  unfold jsonpkg.dec_entry, jsonpkg.enc_entry, jsonpkg.dec_struct.
  cbn [Word Meaning Example Origin Synonyms app jsonpkg.dec_fields].
  rewrite !field_of_exact by (cbn; tauto).
  unfold jsonpkg.set_entry_field at 1 2 3.
  change (String.eqb "word" "word") with true.
  change (String.eqb "meaning" "word") with false.
  change (String.eqb "meaning" "meaning") with true.
  change (String.eqb "example" "word") with false.
  change (String.eqb "example" "meaning") with false.
  change (String.eqb "example" "example") with true.
  cbv iota.
  rewrite (dec_enc_string w _ Hw). cbn [option_map Word Meaning Example Origin Synonyms].
  rewrite (dec_enc_string m _ Hm). cbn [option_map Word Meaning Example Origin Synonyms].
  rewrite (dec_enc_string x _ Hx). cbn [option_map Word Meaning Example Origin Synonyms].
  assert (Hsyn : forall cur : SlangEntry,
             Word cur = w -> Meaning cur = m -> Example cur = x ->
             Origin cur = o -> Synonyms cur = None ->
             jsonpkg.dec_fields U strict jsonpkg.entry_fields (jsonpkg.set_entry_field)
               match elems syn with
               | [] => []
               | _ :: _ => [("synonyms", jsonpkg.enc_strings syn)]
               end cur
             = Some {| Word := w; Meaning := m; Example := x; Origin := o;
                       Synonyms := syn |}).
  { intros [w' m' x' o' s'] Hw' Hm' Hx' Ho' Hc.
    cbn [Word Meaning Example Origin Synonyms] in Hw', Hm', Hx', Ho', Hc. subst w' m' x' o' s'.
    destruct syn as [[|s l]|]; cbn [elems]; try discriminate; [|reflexivity].
    cbn [jsonpkg.dec_fields].
    rewrite field_of_exact by (cbn; tauto).
    unfold jsonpkg.set_entry_field.
    change (String.eqb "synonyms" "word") with false.
    change (String.eqb "synonyms" "meaning") with false.
    change (String.eqb "synonyms" "example") with false.
    change (String.eqb "synonyms" "origin") with false.
    cbv iota. unfold jsonpkg.enc_strings, jsonpkg.dec_strings.
    rewrite (traverse_map jsonpkg.enc_string (fun j => jsonpkg.dec_string j "")
               utf8.ValidString (s :: l)
               (fun y Hy => dec_enc_string y "" Hy) Hs).
    reflexivity. }
  destruct (String.eqb_spec o "") as [->|Hne].
  - cbn [app]. apply Hsyn; reflexivity.
  - cbn [app jsonpkg.dec_fields].
    rewrite field_of_exact by (cbn; tauto).
    unfold jsonpkg.set_entry_field at 1.
    change (String.eqb "origin" "word") with false.
    change (String.eqb "origin" "meaning") with false.
    change (String.eqb "origin" "example") with false.
    change (String.eqb "origin" "origin") with true.
    cbv iota.
    rewrite (dec_enc_string o _ Ho). cbn [option_map Word Meaning Example Origin Synonyms].
    apply Hsyn; reflexivity.
Qed.

Lemma dec_enc_entries (l : slice SlangEntry) :
  forallb stable_entry (elems l) = true ->
  jsonpkg.dec_entries U strict (jsonpkg.enc_entries l) = Some l.
Proof.
  intros H. destruct l as [l|]; [|reflexivity].
  unfold jsonpkg.enc_entries, jsonpkg.dec_entries.
  rewrite (traverse_map jsonpkg.enc_entry
             (fun j => jsonpkg.dec_entry U strict j zero_entry) stable_entry l
             dec_enc_entry H).
  reflexivity.
Qed.

Lemma dec_enc_data (d : SlangData) :
  stable_data d = true ->
  jsonpkg.dec_data U strict (jsonpkg.Marshal d) zero_data = Some d.
Proof.
  destruct d as [u v l]. unfold stable_data.
  cbn [User_ Version Entries].
  rewrite !andb_true_iff. intros [[[Hn Hp] Hv] Hl].
  unfold jsonpkg.dec_data, jsonpkg.Marshal, jsonpkg.dec_struct.
  cbn [User_ Version Entries jsonpkg.dec_fields].
  rewrite !field_of_exact by (cbn; tauto).
  unfold jsonpkg.set_data_field.
  change (String.eqb "user" "user") with true.
  change (String.eqb "version" "user") with false.
  change (String.eqb "version" "version") with true.
  change (String.eqb "entries" "user") with false.
  change (String.eqb "entries" "version") with false.
  cbv iota.
  rewrite (dec_enc_user u _ Hn Hp). cbn [option_map set_User User_ Version Entries].
  rewrite (dec_enc_string v _ Hv). cbn [option_map set_User User_ Version Entries].
  rewrite (dec_enc_entries l Hl). reflexivity.
Qed.

End RoundTrip.

Lemma load_save (U : unicode_tables) (d : SlangData) (w : disk) :
  stable_data d = true -> loadSlangData U (saveSlangData d w) = d.
Proof.
  intros H. unfold saveSlangData, loadSlangData, jsonpkg.Unmarshal.
  now rewrite dec_enc_data.
Qed.

(** *** Removing by position *)







(** *** Adding *)

Lemma word_exists_intro (U : unicode_tables) (l : slice SlangEntry)
    (e : SlangEntry) (word : string) :
  In e (elems l) -> strings.EqualFold U (Word e) word = true ->
  word_exists U l word = true.
Proof.
  intros Hin Hfold. unfold word_exists. apply existsb_exists. now exists e.
Qed.

Lemma handleAddEntry_invalid (U : unicode_tables) (r : request) (w : disk)
    (entry : SlangEntry) :
  readJSON_entry U r = Some entry ->
  strings.TrimSpace (Word entry) = "" \/ strings.TrimSpace (Meaning entry) = "" ->
  handleAddEntry U r w
  = (httpError "Слово и значение обязательны" StatusBadRequest, w).
Proof.
  intros Hbody Hblank. unfold handleAddEntry. rewrite Hbody.
  destruct Hblank as [-> | ->]; [reflexivity|].
  now rewrite orb_true_r.
Qed.

(** C2 (amended). Once an entry [e1] is stored, adding an entry [e2] whose
    word is equal to that of [e1] under case folding fails and leaves the
    stored list as it was.  POST /api/entries never answers 201: it answers
    the duplicate error 409 when word and meaning of [e2] are not blank, and
    the validation error 400 otherwise, that check coming first.  The console
    add, which has no such check, prints its refusal and changes neither its
    document nor the file. *)
Theorem C2_duplicate_rejected (U : unicode_tables) (r : request) (w : disk)
    (slangData : SlangData) (stdin : list string) (e1 e2 : SlangEntry) :
  strings.EqualFold U (Word e1) (Word e2) = true ->
  (In e1 (elems (Entries (loadSlangData U w))) ->
   readJSON_entry U r = Some e2 ->
   snd (handleAddEntry U r w) = w
   /\ Status (fst (handleAddEntry U r w)) <> StatusCreated
   /\ (strings.TrimSpace (Word e2) <> "" -> strings.TrimSpace (Meaning e2) <> "" ->
       fst (handleAddEntry U r w) = httpError "Слово уже существует" StatusConflict)
   /\ (strings.TrimSpace (Word e2) = "" \/ strings.TrimSpace (Meaning e2) = "" ->
       fst (handleAddEntry U r w)
       = httpError "Слово и значение обязательны" StatusBadRequest))
  /\
  (In e1 (elems (Entries slangData)) ->
   strings.TrimSpace (fst (ReadString stdin)) = Word e2 ->
   let result := addNewEntry U slangData stdin w in
   fst (fst (fst result)) = slangData
   /\ snd (fst result) = w
   /\ snd result = [WordExists (Word e2)]).
Proof.
  intros Hfold. split.
  - intros Hin Hbody.
    split; [|split; [|split]].
    + unfold handleAddEntry. rewrite Hbody.
      rewrite (word_exists_intro U _ e1 (Word e2) Hin Hfold).
      now destruct (_ || _).
    + unfold handleAddEntry. rewrite Hbody.
      rewrite (word_exists_intro U _ e1 (Word e2) Hin Hfold).
      destruct (_ || _); cbn; discriminate.
    + intros Hw Hm. apply String.eqb_neq in Hw, Hm.
      unfold handleAddEntry. rewrite Hbody, Hw, Hm.
      now rewrite (word_exists_intro U _ e1 (Word e2) Hin Hfold).
    + intros Hblank. now rewrite (handleAddEntry_invalid U r w e2 Hbody Hblank).
  - intros Hin Hword result. subst result. unfold addNewEntry.
    destruct (ReadString stdin) as [first rest]. cbn [fst snd] in *.
    rewrite Hword.
    now rewrite (word_exists_intro U _ e1 (Word e2) Hin Hfold).
Qed.

Lemma C2_duplicate_rejected_witness :
  fst (handleAddEntry ascii_tables
         (post "/api/entries" (json_of_entry "RIZZ" "charm")) sample_disk)
  = httpError "Слово уже существует" StatusConflict
  /\ fst (handleAddEntry ascii_tables
            (post "/api/entries" (json_of_entry "RIZZ" "")) sample_disk)
     = httpError "Слово и значение обязательны" StatusBadRequest
  /\ snd (addNewEntry ascii_tables sample_data [line "  Rizz "; line "charm"] sample_disk)
     = [WordExists "Rizz"].
Proof.
  split; [|split].
  - refine (proj1 (proj2 (proj2 (proj1 (C2_duplicate_rejected ascii_tables
              (post "/api/entries" (json_of_entry "RIZZ" "charm")) sample_disk
              sample_data [] rizz shouted_rizz eq_refl) _ eq_refl))) _ _).
    + left. reflexivity.
    + vm_compute. discriminate.
    + vm_compute. discriminate.
  - refine (proj2 (proj2 (proj2 (proj1 (C2_duplicate_rejected ascii_tables
              (post "/api/entries" (json_of_entry "RIZZ" "")) sample_disk
              sample_data [] rizz rizz_unexplained eq_refl) _ eq_refl))) _).
    + left. reflexivity.
    + right. reflexivity.
  - refine (proj2 (proj2 (proj2 (C2_duplicate_rejected ascii_tables
              (post "/api/entries" (json_of_entry "RIZZ" "charm")) sample_disk
              sample_data [line "  Rizz "; line "charm"] rizz
              {| Word := "Rizz"; Meaning := ""; Example := ""; Origin := "";
                 Synonyms := None |} eq_refl) _ eq_refl))).
    left. reflexivity.
Defined.

Lemma C2_counterexample :
  ~ (forall (U : unicode_tables) (r : request) (w : disk) (e1 e2 : SlangEntry),
       strings.EqualFold U (Word e1) (Word e2) = true ->
       In e1 (elems (Entries (loadSlangData U w))) ->
       readJSON_entry U r = Some e2 ->
       Status (fst (handleAddEntry U r w)) = StatusConflict).
Proof.
  intros H.
  specialize (H ascii_tables (post "/api/entries" (json_of_entry "RIZZ" ""))
                sample_disk rizz rizz_unexplained eq_refl).
  assert (Hin : In rizz (elems (Entries (loadSlangData ascii_tables sample_disk))))
    by (left; reflexivity).
  specialize (H Hin eq_refl). vm_compute in H. discriminate H.
Qed.

(** *** Logging in *)

Lemma attempt_shift (line1 line2 : string) (rest : list string) (k : nat) :
  attempt (line1 :: line2 :: rest) (S k) = attempt rest k.
Proof.
  unfold attempt. replace (2 * S k)%nat with (S (S (2 * k))) by lia.
  replace (S (S (2 * k)) + 1)%nat with (S (S (2 * k + 1))) by lia.
  reflexivity.
Qed.

Lemma ReadString_twice (stdin : list string) :
  exists line1 line2 rest,
    ReadString stdin = (line1, snd (ReadString stdin))
    /\ ReadString (snd (ReadString stdin)) = (line2, rest)
    /\ attempt stdin 0 = (strings.TrimSpace line1, strings.TrimSpace line2)
    /\ forall k, attempt stdin (S k) = attempt rest k.
Proof.
  destruct stdin as [|l1 [|l2 rest]].
  - exists "", "", []. repeat split. intros k. unfold attempt.
    now destruct (2 * S k)%nat, (2 * S k + 1)%nat, (2 * k)%nat, (2 * k + 1)%nat.
  - exists l1, "", []. repeat split. intros k. unfold attempt.
    replace (2 * S k)%nat with (S (S (2 * k))) by lia.
    replace (S (S (2 * k)) + 1)%nat with (S (S (2 * k + 1))) by lia.
    cbn [nth]. now destruct (2 * k)%nat, (2 * k + 1)%nat.
  - exists l1, l2, rest. repeat split. intros k. apply attempt_shift.
Qed.

Lemma pair_eqb (a b c d : string) :
  String.eqb a c && String.eqb b d = true <-> (a, b) = (c, d).
Proof.
  rewrite andb_true_iff, !String.eqb_eq. split.
  - now intros [-> ->].
  - now intros [= -> ->].
Qed.

Lemma login_loop_ok (n : nat) (slangData : SlangData) :
  forall stdin,
    fst (fst (login_loop n slangData stdin)) = true <->
    exists k, (k < n)%nat /\
      attempt stdin k = (Username (User_ slangData), Password (User_ slangData)).
Proof.
  induction n as [|n IH]; intros stdin.
  - cbn. split; [discriminate | intros [k [Hk _]]; lia].
  - destruct (ReadString_twice stdin) as (l1 & l2 & rest & H1 & H2 & H0 & Hs).
    cbn [login_loop]. rewrite H1, H2.
    destruct (String.eqb (strings.TrimSpace l1) (Username (User_ slangData))
              && String.eqb (strings.TrimSpace l2) (Password (User_ slangData)))
      eqn:E.
    + cbn [fst]. split; [intros _ | reflexivity].
      exists 0%nat. split; [lia|]. rewrite H0. now apply pair_eqb.
    + specialize (IH rest).
      destruct (login_loop n slangData rest) as [[ok stdin'] out]. cbn [fst] in *.
      rewrite IH. split.
      * intros (k & Hk & Hatt). exists (S k). split; [lia|]. now rewrite Hs.
      * intros (k & Hk & Hatt). destruct k as [|k].
        { rewrite H0 in Hatt. apply pair_eqb in Hatt. congruence. }
        exists k. split; [lia|]. now rewrite <- Hs.
Qed.





(** *** Saving and loading *)


(** C3 (amended). A document in which every string is valid UTF-8 and no
    entry has an empty non-nil synonyms slice is read back by [loadSlangData]
    exactly as [saveSlangData] was given it: all fields, the order of the
    entries, and the presence or absence of origin and synonyms. *)
Theorem C3_save_then_load (U : unicode_tables) (d : SlangData) (w : disk) :
  stable_data d = true ->
  loadSlangData U (saveSlangData d w) = d.
Proof.
  apply load_save.
Qed.

Lemma C3_save_then_load_witness :
  loadSlangData ascii_tables (saveSlangData sample_data NoFile) = sample_data.
Proof.
  apply (C3_save_then_load ascii_tables sample_data NoFile). reflexivity.
Defined.

Lemma C3_counterexample :
  ~ (forall (U : unicode_tables) (d : SlangData) (w : disk),
       loadSlangData U (saveSlangData d w) = d).
Proof.
  intros H.
  specialize (H ascii_tables (set_Entries default_data (Some [rizz_no_synonyms])) NoFile).
  vm_compute in H. discriminate H.
Qed.

(** *** Registering *)

(** C5 (amended). With a user registered, registering again always fails and
    leaves the document as it was.  The console registration reports that a
    user is already registered whatever would be typed; POST /api/register
    answers 409 when the supplied name is not empty and the password has at
    least four bytes, and 400 otherwise. *)
Theorem C5_register_twice (U : unicode_tables) (r : request) (w : disk)
    (stdin : list string) :
  Username (User_ (loadSlangData U w)) <> "" ->
  snd (handleRegister U r w) = w
  /\ Status (fst (handleRegister U r w)) <> StatusCreated
  /\ (forall req, readJSON_req U r = Some req ->
      (Username req <> "" /\ 4 <= Z.of_nat (String.length (Password req)) ->
       fst (handleRegister U r w)
       = httpError "Пользователь уже зарегистрирован" StatusConflict)
      /\ (Username req = "" \/ Z.of_nat (String.length (Password req)) < 4 ->
          Status (fst (handleRegister U r w)) = StatusBadRequest))
  /\ register U stdin w = (false, stdin, w, [AlreadyRegistered]).
Proof.
  intros Hreg. apply String.eqb_neq in Hreg.
  unfold handleRegister, register. rewrite Hreg. cbn [negb].
  destruct (readJSON_req U r) as [req|].
  - destruct (String.eqb_spec (Username req) "") as [Hn|Hn]; cbn [orb].
    { cbn [fst snd Status httpError]. unfold StatusBadRequest, StatusCreated.
      split; [reflexivity|]. split; [discriminate|]. split; [|reflexivity].
      intros req' [= <-]. split; [tauto | reflexivity]. }
    destruct (Z.ltb_spec (Z.of_nat (String.length (Password req))) 4) as [Hp|Hp].
    { cbn [fst snd Status httpError]. unfold StatusBadRequest, StatusCreated.
      split; [reflexivity|]. split; [discriminate|]. split; [|reflexivity].
      intros req' [= <-]. split; [lia | reflexivity]. }
    cbn [fst snd Status httpError]. unfold StatusConflict, StatusCreated.
    split; [reflexivity|]. split; [discriminate|]. split; [|reflexivity].
    intros req' [= <-]. split; [reflexivity|].
    intros [?|?]; [contradiction | lia].
  - cbn [fst snd Status httpError]. unfold StatusBadRequest, StatusCreated.
    split; [reflexivity|]. split; [discriminate|]. split; [|reflexivity].
    intros req' [=].
Qed.

Lemma C5_register_twice_witness :
  fst (handleRegister ascii_tables
         (post "/api/register" (json_of_credentials "bob" "hunter2")) sample_disk)
  = httpError "Пользователь уже зарегистрирован" StatusConflict.
Proof.
  refine (proj1 (proj1 (proj2 (proj2
            (C5_register_twice ascii_tables
               (post "/api/register" (json_of_credentials "bob" "hunter2"))
               sample_disk [] _))) {| Username := "bob"; Password := "hunter2" |} eq_refl) _).
  - vm_compute. discriminate.
  - split; [discriminate | vm_compute; discriminate].
Defined.

Lemma C5_counterexample :
  ~ (forall (U : unicode_tables) (r : request) (w : disk) (req : User),
       Username (User_ (loadSlangData U w)) <> "" ->
       readJSON_req U r = Some req ->
       Status (fst (handleRegister U r w)) = StatusConflict).
Proof.
  intros H.
  specialize (H ascii_tables (post "/api/register" (json_of_credentials "" "pw"))
                sample_disk {| Username := ""; Password := "pw" |}).
  assert (Hreg : Username (User_ (loadSlangData ascii_tables sample_disk)) <> "")
    by (vm_compute; discriminate).
  specialize (H Hreg eq_refl). vm_compute in H. discriminate H.
Qed.

(** C6 (where the console add departs from it).  A candidate whose word or
    meaning is blank is refused by POST /api/entries with the validation
    error and no change ([handleAddEntry_invalid]), but not by the console:
    five empty answers to [addNewEntry] on the empty dictionary store an
    entry whose word and meaning are empty. *)
Theorem C6_console_add_stores_blank_entry (U : unicode_tables) :
  strings.TrimSpace enter = ""
  /\ addNewEntry U default_data [enter; enter; enter; enter; enter] NoFile
     = (set_Entries default_data (Some [zero_entry]), [],
        saveSlangData (set_Entries default_data (Some [zero_entry])) NoFile,
        [WordAdded ""]).
Proof.
  split; reflexivity.
Qed.

(** *** The index in the path *)








(** *** The user endpoint and the routes *)

(** C8. The answer to GET /api/user is a function of the stored user name
    alone: two documents that differ only in the password get the same
    answer, which is the 401 not-registered error when the name is empty and
    otherwise the JSON object holding just the name. *)
Theorem C8_user_response_hides_password (U : unicode_tables) (r : request)
    (w1 w2 : disk) (password : string) :
  loadSlangData U w2
  = set_User (loadSlangData U w1)
      {| Username := Username (User_ (loadSlangData U w1)); Password := password |} ->
  fst (handleGetUser U r w1) = fst (handleGetUser U r w2)
  /\ fst (handleGetUser U r w1)
     = (if String.eqb (Username (User_ (loadSlangData U w1))) ""
        then httpError "Пользователь не зарегистрирован" StatusUnauthorized
        else respondJSON StatusOK
               (jsonpkg.enc_map [("username", Username (User_ (loadSlangData U w1)))])).
Proof.
  intros H. unfold handleGetUser. rewrite H. cbn [set_User User_ Username].
  split; now destruct (String.eqb (Username (User_ (loadSlangData U w1))) "").
Qed.

Lemma C8_user_response_hides_password_witness :
  fst (handleGetUser ascii_tables {| Method := "GET"; Path := "/api/user"; Body := None |}
         sample_disk)
  = fst (handleGetUser ascii_tables {| Method := "GET"; Path := "/api/user"; Body := None |}
           (saveSlangData
              (set_User sample_data {| Username := "ann"; Password := "0ther" |}) NoFile)).
Proof.
  apply (proj1 (C8_user_response_hides_password ascii_tables
                  {| Method := "GET"; Path := "/api/user"; Body := None |}
                  sample_disk
                  (saveSlangData
                     (set_User sample_data {| Username := "ann"; Password := "0ther" |})
                     NoFile)
                  "0ther" eq_refl)).
Defined.

Ltac by_cases_on_branches :=
  repeat match goal with
         | |- context [match ?x with _ => _ end] => destruct x
         end;
  cbn [fst snd Status httpError respondJSON].

Lemma handlers_never_405 (U : unicode_tables) (r : request) (w : disk) :
  Status (fst (handleGetUser U r w)) <> StatusMethodNotAllowed
  /\ Status (fst (handleRegister U r w)) <> StatusMethodNotAllowed
  /\ Status (fst (handleLogin U r w)) <> StatusMethodNotAllowed.
Proof.
  unfold handleGetUser, handleRegister, handleLogin.
  repeat split; by_cases_on_branches; discriminate.
Qed.

(** C9. The routes /api/user, /api/register and /api/login run their handler
    whatever the method of the request: the answer is the one the handler
    gives to a request with the usual method, and never 405.  So a GET to
    /api/register with a valid body registers the user. *)
Theorem C9_no_method_check (U : unicode_tables) (m : string) (body : option json)
    (w : disk) :
  (serve U {| Method := m; Path := "/api/user"; Body := body |} w
   = handleGetUser U {| Method := "GET"; Path := "/api/user"; Body := body |} w
   /\ serve U {| Method := m; Path := "/api/register"; Body := body |} w
      = handleRegister U {| Method := "POST"; Path := "/api/register"; Body := body |} w
   /\ serve U {| Method := m; Path := "/api/login"; Body := body |} w
      = handleLogin U {| Method := "POST"; Path := "/api/login"; Body := body |} w)
  /\ (Status (fst (serve U {| Method := m; Path := "/api/user"; Body := body |} w))
      <> StatusMethodNotAllowed
      /\ Status (fst (serve U {| Method := m; Path := "/api/register"; Body := body |} w))
         <> StatusMethodNotAllowed
      /\ Status (fst (serve U {| Method := m; Path := "/api/login"; Body := body |} w))
         <> StatusMethodNotAllowed)
  /\ serve U {| Method := "GET"; Path := "/api/register";
                Body := Some (json_of_credentials "ann" "secr3t") |} NoFile
     = (respondJSON StatusCreated (message "Регистрация успешна"),
        saveSlangData (set_User default_data ann) NoFile).
Proof.
  split; [repeat split | split; [|reflexivity]].
  change (serve U {| Method := m; Path := "/api/user"; Body := body |} w)
    with (handleGetUser U {| Method := m; Path := "/api/user"; Body := body |} w).
  change (serve U {| Method := m; Path := "/api/register"; Body := body |} w)
    with (handleRegister U {| Method := m; Path := "/api/register"; Body := body |} w).
  change (serve U {| Method := m; Path := "/api/login"; Body := body |} w)
    with (handleLogin U {| Method := m; Path := "/api/login"; Body := body |} w).
  repeat split; apply handlers_never_405.
Qed.

(** *** Words that differ by a leading blank *)

Lemma DecodeRune_high (a : Z) (p : list Z) :
  utf8.RuneSelf <= a -> utf8.RuneSelf <= fst (utf8.DecodeRune (a :: p)).
Proof.
  unfold utf8.RuneSelf, utf8.DecodeRune, utf8.lead, utf8.accept, utf8.cont,
    utf8.RuneError, between.
  intros Ha.
  destruct (Z.ltb_spec a 0x80); [lia|].
  destruct (Z.ltb_spec a 0xC2); [cbn; lia|].
  destruct (Z.ltb_spec a 0xE0).
  { destruct p as [|s1 p]; [cbn; lia|].
    repeat match goal with
           | |- context [Z.eqb ?x ?y] => destruct (Z.eqb_spec x y); try lia
           end.
    cbn [fst snd].
    destruct (Z.leb_spec 0x80 s1), (Z.leb_spec s1 0xBF); cbn; lia. }
  destruct (Z.ltb_spec a 0xF0).
  { destruct p as [|s1 [|s2 p]]; try (cbn; lia).
    repeat match goal with
           | |- context [Z.eqb ?x ?y] => destruct (Z.eqb_spec x y); try lia
           end;
    cbn [fst snd];
    repeat match goal with
           | |- context [Z.leb ?x ?y] => destruct (Z.leb_spec x y)
           end; cbn; lia. }
  destruct (Z.ltb_spec a 0xF5); [|cbn; lia].
  destruct p as [|s1 [|s2 [|s3 p]]]; try (cbn; lia).
  repeat match goal with
         | |- context [Z.eqb ?x ?y] => destruct (Z.eqb_spec x y); try lia
         end;
  cbn [fst snd];
  repeat match goal with
         | |- context [Z.leb ?x ?y] => destruct (Z.leb_spec x y)
         end; cbn; lia.
Qed.

Lemma runeFold_blank (U : unicode_tables) (sr : Z) :
  utf8.RuneSelf <= sr -> strings.runeFold U sr 32 = false.
Proof.
  unfold utf8.RuneSelf, strings.runeFold. intros H.
  destruct (Z.eqb_spec sr 32); [lia|].
  rewrite Z.min_r, Z.max_l by lia.
  unfold utf8.RuneSelf.
  destruct (Z.ltb_spec sr 0x80); [lia|]. reflexivity.
Qed.

Lemma EqualFold_bytes_blank (U : unicode_tables) (p : list Z) :
  strings.EqualFold_bytes U p (32 :: p) = false.
Proof.
  induction p as [|a p IH]; [reflexivity|].
  cbn [strings.EqualFold_bytes].
  change (utf8.RuneSelf <=? 32) with false. rewrite orb_false_r.
  destruct (Z.leb_spec utf8.RuneSelf a) as [Hhi|Hlo].
  - cbn [List.length strings.EqualFold_runes].
    pose proof (DecodeRune_high a p Hhi) as Hr.
    destruct (utf8.DecodeRune (a :: p)) as [sr n]. cbn [fst] in Hr.
    change (32 <? utf8.RuneSelf) with true. cbv iota.
    now rewrite runeFold_blank.
  - unfold utf8.RuneSelf in Hlo.
    destruct (Z.eqb_spec a 32) as [->|Hne]; [exact IH|].
    unfold strings.asciiFoldPair, between.
    destruct (Z.min_spec a 32) as [[Hlt ->]|[Hge ->]].
    + destruct (Z.leb_spec 65 a); [lia | reflexivity].
    + reflexivity.
Qed.

Lemma EqualFold_blank (U : unicode_tables) (word : string) :
  strings.EqualFold U word (" " ++ word) = false.
Proof.
  unfold strings.EqualFold.
  change (bytes (" " ++ word)) with (32 :: bytes word).
  apply EqualFold_bytes_blank.
Qed.

(** C10 (amended). POST /api/entries stores the candidate as decoded, blanks
    included, and compares the untrimmed word: a stored entry with word [w]
    never stands in the way of a candidate with word [" " ++ w].  The add
    succeeds, and both entries are stored, provided the candidate passes the
    check of word and meaning and no stored word is itself equal to the
    candidate's untrimmed word under case folding. *)
Theorem C10_leading_blank_is_another_word (U : unicode_tables) (r : request)
    (w : disk) (e c : SlangEntry) :
  let stored := loadSlangData U w in
  strings.EqualFold U (Word e) (" " ++ Word e) = false
  /\ (In e (elems (Entries stored)) ->
      readJSON_entry U r = Some c ->
      Word c = (" " ++ Word e)%string ->
      strings.TrimSpace (Word c) <> "" -> strings.TrimSpace (Meaning c) <> "" ->
      (forall e', In e' (elems (Entries stored)) -> Word e' <> Word e ->
                  strings.EqualFold U (Word e') (Word c) = false) ->
      handleAddEntry U r w
      = (respondJSON StatusCreated (message "Слово добавлено"),
         saveSlangData (set_Entries stored (Some (elems (Entries stored) ++ [c]))) w)
      /\ In e (elems (Entries stored) ++ [c])
      /\ In c (elems (Entries stored) ++ [c])).
Proof.
  intros stored. split; [apply EqualFold_blank|].
  intros Hin Hbody Hword Hw Hm Hothers.
  apply String.eqb_neq in Hw, Hm.
  unfold handleAddEntry. rewrite Hbody, Hw, Hm. cbn [orb]. fold stored.
  assert (Hnone : word_exists U (Entries stored) (Word c) = false).
  { unfold word_exists. apply not_true_is_false. intros Hex.
    apply existsb_exists in Hex as (e' & Hin' & Hfold).
    destruct (String.eqb_spec (Word e') (Word e)) as [Heq|Hne].
    - rewrite Heq, Hword, EqualFold_blank in Hfold. discriminate.
    - rewrite (Hothers e' Hin' Hne) in Hfold. discriminate. }
  rewrite Hnone. unfold append.
  repeat split; apply in_or_app; [left; exact Hin | right; now left].
Qed.

Lemma C10_leading_blank_is_another_word_witness :
  handleAddEntry ascii_tables
    (post "/api/entries" (json_of_entry " rizz" "charisma")) sample_disk
  = (respondJSON StatusCreated (message "Слово добавлено"),
     saveSlangData (set_Entries sample_data (Some [rizz; sus; spaced_rizz])) sample_disk).
Proof.
  refine (proj1 (proj2 (C10_leading_blank_is_another_word ascii_tables
            (post "/api/entries" (json_of_entry " rizz" "charisma"))
            sample_disk rizz spaced_rizz) _ eq_refl eq_refl _ _ _)).
  - left. reflexivity.
  - vm_compute. discriminate.
  - vm_compute. discriminate.
  - intros e' Hin Hne. vm_compute in Hin.
    destruct Hin as [<-|[<-|[]]]; [exfalso; now apply Hne | reflexivity].
Defined.

Lemma C10_counterexample :
  ~ (forall (U : unicode_tables) (r : request) (w : disk) (e c : SlangEntry),
       In e (elems (Entries (loadSlangData U w))) ->
       readJSON_entry U r = Some c ->
       Word c = (" " ++ Word e)%string ->
       Status (fst (handleAddEntry U r w)) = StatusCreated).
Proof.
  intros H.
  specialize (H ascii_tables
                (post "/api/entries" (json_of_entry " rizz" "charisma"))
                (saveSlangData (set_Entries sample_data (Some [rizz; spaced_rizz])) NoFile)
                rizz spaced_rizz).
  assert (Hin : In rizz (elems (Entries (loadSlangData ascii_tables
                  (saveSlangData (set_Entries sample_data (Some [rizz; spaced_rizz])) NoFile)))))
    by (left; reflexivity).
  specialize (H Hin eq_refl eq_refl). vm_compute in H. discriminate H.
Qed.

(** *** A session over the API *)

(** Register, log in, add a word, list, delete it, list again, starting from
    an absent file. *)
Example api_session :
  let get_ path := {| Method := "GET"; Path := path; Body := None |} in
  let '(r1, w1) :=
    serve ascii_tables (post "/api/register" (json_of_credentials "ann" "secr3t")) NoFile in
  let '(r2, w2) :=
    serve ascii_tables (post "/api/login" (json_of_credentials "ann" "secr3t")) w1 in
  let '(r3, w3) :=
    serve ascii_tables (post "/api/entries" (json_of_entry "rizz" "charisma")) w2 in
  let '(r4, w4) := serve ascii_tables (get_ "/api/entries") w3 in
  let '(r5, w5) := serve ascii_tables (delete_request "1") w4 in
  let '(r6, w6) := serve ascii_tables (get_ "/api/entries") w5 in
  map Status [r1; r2; r3; r4; r5; r6] = [201; 200; 201; 200; 200; 200]
  /\ Payload r2 = Json (JObject [("message", JString "Успешный вход");
                                 ("username", JString "ann")])
  /\ Payload r4 = Json (JArray [JObject [("word", JString "rizz");
                                         ("meaning", JString "charisma");
                                         ("example", JString "")]])
  /\ Payload r6 = Json (JArray [])
  /\ loadSlangData ascii_tables w6 = set_User default_data ann.
Proof.
  vm_compute. repeat split.
Qed.

(** * Further properties *)

(** ** More on adding *)

Lemma handleAddEntry_cases (U : unicode_tables) (r : request) (w : disk) :
  let stored := loadSlangData U w in
  (forall entry,
     readJSON_entry U r = Some entry ->
     strings.TrimSpace (Word entry) <> "" ->
     strings.TrimSpace (Meaning entry) <> "" ->
     word_exists U (Entries stored) (Word entry) = false ->
     handleAddEntry U r w
     = (respondJSON StatusCreated (message "Слово добавлено"),
        saveSlangData (set_Entries stored (Some (elems (Entries stored) ++ [entry]))) w))
  /\ (Status (fst (handleAddEntry U r w)) = StatusCreated ->
      exists entry,
        readJSON_entry U r = Some entry
        /\ strings.TrimSpace (Word entry) <> ""
        /\ strings.TrimSpace (Meaning entry) <> ""
        /\ word_exists U (Entries stored) (Word entry) = false)
  /\ (Status (fst (handleAddEntry U r w)) <> StatusCreated ->
      snd (handleAddEntry U r w) = w).
Proof.
  intros stored. unfold handleAddEntry. fold stored.
  destruct (readJSON_entry U r) as [entry|].
  2:{ cbn. unfold StatusBadRequest, StatusCreated.
      split; [intros ? [=]|]. split; [discriminate | reflexivity]. }
  destruct (String.eqb_spec (strings.TrimSpace (Word entry)) "") as [Hw|Hw].
  { cbn. unfold StatusBadRequest, StatusCreated.
    split; [intros ? [= <-]; congruence|]. split; [discriminate | reflexivity]. }
  destruct (String.eqb_spec (strings.TrimSpace (Meaning entry)) "") as [Hm|Hm].
  { cbn. unfold StatusBadRequest, StatusCreated.
    split; [intros ? [= <-]; congruence|]. split; [discriminate | reflexivity]. }
  cbn [orb].
  destruct (word_exists U (Entries stored) (Word entry)) eqn:Hdup.
  { cbn. unfold StatusConflict, StatusCreated.
    split; [intros ? [= <-]; congruence|]. split; [discriminate | reflexivity]. }
  cbn [fst snd Status respondJSON]. split; [|split].
  - intros ? [= <-] _ _ _. reflexivity.
  - intros _. now exists entry.
  - congruence.
Qed.

(** X1. POST /api/entries answers 201 exactly when the body decodes to an
    entry whose word and meaning are not blank and whose word no stored word
    equals under case folding; it then writes the stored document with that
    entry, as decoded, added at the end.  In every other case the file is
    left as it was. *)
Theorem handleAddEntry_created (U : unicode_tables) (r : request) (w : disk) :
  let stored := loadSlangData U w in
  (forall entry,
     readJSON_entry U r = Some entry ->
     strings.TrimSpace (Word entry) <> "" ->
     strings.TrimSpace (Meaning entry) <> "" ->
     word_exists U (Entries stored) (Word entry) = false ->
     handleAddEntry U r w
     = (respondJSON StatusCreated (message "Слово добавлено"),
        saveSlangData (set_Entries stored (Some (elems (Entries stored) ++ [entry]))) w))
  /\ (Status (fst (handleAddEntry U r w)) = StatusCreated ->
      exists entry,
        readJSON_entry U r = Some entry
        /\ strings.TrimSpace (Word entry) <> ""
        /\ strings.TrimSpace (Meaning entry) <> ""
        /\ word_exists U (Entries stored) (Word entry) = false)
  /\ (Status (fst (handleAddEntry U r w)) <> StatusCreated ->
      snd (handleAddEntry U r w) = w).
Proof.
  exact (handleAddEntry_cases U r w).
Qed.

(** *** The stored words stay distinct *)

Lemma fold_distinct_snoc (U : unicode_tables) (words : list string) (word : string) :
  fold_distinct U words = true ->
  forallb (fun v => negb (strings.EqualFold U v word)) words = true ->
  fold_distinct U (words ++ [word]) = true.
Proof.
  induction words as [|v words IH]; intros Hd Hnew; [reflexivity|].
  cbn [fold_distinct forallb app] in *.
  apply andb_true_iff in Hd as [Hv Hd]. apply andb_true_iff in Hnew as [Hvw Hnew].
  rewrite forallb_app, Hv, (IH Hd Hnew). cbn [forallb]. now rewrite Hvw.
Qed.

Lemma fold_distinct_drop (U : unicode_tables) (before after : list string)
    (word : string) :
  fold_distinct U (before ++ word :: after) = true ->
  fold_distinct U (before ++ after) = true.
Proof.
  induction before as [|v before IH]; cbn [fold_distinct app]; intros H.
  - apply andb_true_iff in H as [_ H]. exact H.
  - apply andb_true_iff in H as [Hv H]. rewrite forallb_app in Hv.
    apply andb_true_iff in Hv as [Hb Ha]. cbn [forallb] in Ha.
    apply andb_true_iff in Ha as [_ Ha].
    now rewrite forallb_app, Hb, Ha, (IH H).
Qed.

Lemma word_exists_false (U : unicode_tables) (l : slice SlangEntry) (word : string) :
  word_exists U l word = false ->
  forallb (fun v => negb (strings.EqualFold U v word)) (words_of l) = true.
Proof.
  unfold word_exists, words_of. induction (elems l) as [|e es IH]; [reflexivity|].
  cbn [existsb map forallb]. intros H. apply orb_false_iff in H as [He Hes].
  now rewrite He, (IH Hes).
Qed.

Lemma words_of_remove_at (l : slice SlangEntry) (p : Z) :
  1 <= p <= len l ->
  exists before word after,
    words_of l = before ++ word :: after
    /\ words_of (remove_at l p) = before ++ after.
Proof.
  unfold len, words_of, remove_at. cbn [elems]. set (es := elems l). intros Hp.
  replace (Z.to_nat p) with (S (Z.to_nat (p - 1))) by lia.
  set (i := Z.to_nat (p - 1)).
  assert (Hi : (i < List.length es)%nat) by (unfold i; lia).
  destruct (nth_error es i) as [e|] eqn:He;
    [|apply nth_error_None in He; lia].
  exists (map Word (firstn i es)), (Word e), (map Word (skipn (S i) es)).
  split.
  - rewrite <- (firstn_skipn_middle i es He) at 1. cbn [map].
    now rewrite map_app.
  - now rewrite map_app.
Qed.

(** X2. Adding keeps the stored words pairwise distinct under case folding:
    if they are before a successful POST /api/entries, they are in the
    document it writes; and the console add, whether it refuses or appends,
    leaves the words of its document distinct. *)
Theorem add_keeps_words_distinct (U : unicode_tables) (r : request) (w : disk)
    (slangData : SlangData) (stdin : list string) :
  (fold_distinct U (words_of (Entries (loadSlangData U w))) = true ->
   Status (fst (handleAddEntry U r w)) = StatusCreated ->
   exists d',
     snd (handleAddEntry U r w) = saveSlangData d' w
     /\ fold_distinct U (words_of (Entries d')) = true)
  /\ (fold_distinct U (words_of (Entries slangData)) = true ->
      fold_distinct U
        (words_of (Entries (fst (fst (fst (addNewEntry U slangData stdin w)))))) = true).
Proof.
  split.
  - intros Hd Hok.
    destruct (handleAddEntry_cases U r w) as (Hrun & Hwhy & _).
    destruct (Hwhy Hok) as (entry & Hbody & Hw & Hm & Hnew).
    rewrite (Hrun entry Hbody Hw Hm Hnew). cbn [snd].
    eexists. split; [reflexivity|].
    unfold words_of, set_Entries. cbn [Entries elems]. rewrite map_app.
    apply fold_distinct_snoc; [exact Hd | now apply word_exists_false].
  - intros Hd. unfold addNewEntry.
    destruct (ReadString stdin) as [word stdin1].
    destruct (word_exists U (Entries slangData) (strings.TrimSpace word)) eqn:Hnew;
      [exact Hd|].
    destruct (ReadString stdin1) as [meaning stdin2].
    destruct (ReadString stdin2) as [example stdin3].
    destruct (ReadString stdin3) as [origin stdin4].
    destruct (ReadString stdin4) as [synonyms stdin5].
    cbn [fst]. unfold words_of, set_Entries, append. cbn [Entries elems Word].
    rewrite map_app. cbn [map Word].
    apply fold_distinct_snoc; [exact Hd | now apply word_exists_false].
Qed.

Lemma add_keeps_words_distinct_witness :
  fold_distinct ascii_tables
    (words_of (Entries (fst (fst (fst
       (addNewEntry ascii_tables sample_data
          [line "yeet"; line "to throw"; line ""; line ""; line "toss, chuck"]
          sample_disk)))))) = true.
Proof.
  apply (proj2 (add_keeps_words_distinct ascii_tables
                  (post "/api/entries" (json_of_entry "yeet" "to throw")) sample_disk
                  sample_data
                  [line "yeet"; line "to throw"; line ""; line ""; line "toss, chuck"])).
  reflexivity.
Defined.

(** X3. Deleting keeps the stored words pairwise distinct under case
    folding, over DELETE /api/entries/{n} and at the console. *)
Theorem delete_keeps_words_distinct (U : unicode_tables) (r : request) (w : disk)
    (slangData : SlangData) (index : option Z) (confirm : string) :
  (fold_distinct U (words_of (Entries (loadSlangData U w))) = true ->
   Status (fst (handleDeleteEntry U r w)) = StatusOK ->
   exists d',
     snd (handleDeleteEntry U r w) = saveSlangData d' w
     /\ fold_distinct U (words_of (Entries d')) = true)
  /\ (fold_distinct U (words_of (Entries slangData)) = true ->
      fold_distinct U
        (words_of (Entries (fst (fst (deleteEntry U slangData index confirm w))))) = true).
Proof.
  assert (Hdrop : forall l p, 1 <= p <= len l ->
            fold_distinct U (words_of l) = true ->
            fold_distinct U (words_of (remove_at l p)) = true).
  { intros l p Hp Hd.
    destruct (words_of_remove_at l p Hp) as (before & word & after & Hl & Hr).
    rewrite Hr. rewrite Hl in Hd. exact (fold_distinct_drop U _ _ _ Hd). }
  split.
  - intros Hd. unfold handleDeleteEntry.
    destruct (strconv.Atoi _) as [p|]; [|cbn; discriminate].
    destruct (Z.ltb_spec p 1); [cbn; discriminate|].
    destruct (Z.ltb_spec (len (Entries (loadSlangData U w))) p); [cbn; discriminate|].
    intros _. cbn [snd]. eexists. split; [reflexivity|].
    unfold set_Entries. cbn [Entries]. apply Hdrop; [lia | exact Hd].
  - intros Hd. unfold deleteEntry.
    destruct (len (Entries slangData) =? 0); [exact Hd|].
    destruct index as [p|]; [|exact Hd].
    destruct (Z.ltb_spec p 1); [exact Hd|].
    destruct (Z.ltb_spec (len (Entries slangData)) p); [exact Hd|].
    cbn [orb]. destruct (confirmed U confirm); [|exact Hd].
    cbn [fst]. unfold set_Entries. cbn [Entries]. apply Hdrop; [lia | exact Hd].
Qed.

Lemma delete_keeps_words_distinct_witness :
  exists d',
    snd (handleDeleteEntry ascii_tables (delete_request "1") sample_disk)
    = saveSlangData d' sample_disk
    /\ fold_distinct ascii_tables (words_of (Entries d')) = true.
Proof.
  apply (proj1 (delete_keeps_words_distinct ascii_tables (delete_request "1")
                  sample_disk sample_data None "")); reflexivity.
Defined.

(** ** What the API writes *)

Ltac branch :=
  match goal with
  | |- context [match ?x with _ => _ end] => destruct x eqn:?
  end.

(** X4. The API rewrites the file only when it answers 201 to a POST on
    /api/entries, 200 to a DELETE under /api/entries/, or 201 on
    /api/register; every other request, whatever its answer, leaves the file
    as it was.  In particular no request answered with an error writes. *)
Theorem serve_writes_only_on_success (U : unicode_tables) (r : request) (w : disk) :
  snd (serve U r w) = w
  \/ (Method r = "POST" /\ Path r = "/api/entries"
      /\ Status (fst (serve U r w)) = StatusCreated)
  \/ (Method r = "DELETE" /\ String.prefix "/api/entries/" (Path r) = true
      /\ Status (fst (serve U r w)) = StatusOK)
  \/ (Path r = "/api/register" /\ Status (fst (serve U r w)) = StatusCreated).
Proof.
  unfold serve.
  destruct (String.eqb_spec (Path r) "/api/entries") as [Hp|Hp].
  { destruct (String.eqb_spec (Method r) "GET"); [now left|].
    destruct (String.eqb_spec (Method r) "POST") as [Hm|]; [|now left].
    unfold handleAddEntry. repeat branch; cbn [fst snd]; auto 10. }
  destruct (String.prefix "/api/entries/" (Path r)) eqn:Hpre.
  { destruct (String.eqb_spec (Method r) "DELETE") as [Hm|]; [|now left].
    unfold handleDeleteEntry. repeat branch; cbn [fst snd]; auto 10. }
  destruct (String.eqb_spec (Path r) "/api/user");
    [unfold handleGetUser; branch; now left|].
  destruct (String.eqb_spec (Path r) "/api/register") as [Hr|].
  { unfold handleRegister. repeat branch; cbn [fst snd]; auto 10. }
  destruct (String.eqb_spec (Path r) "/api/login"); [|now left].
  unfold handleLogin. repeat branch; cbn [fst snd]; auto.
Qed.

(** X5. Whatever the API writes has the version of the document it loaded;
    it also has the same user, except for a registration, which happens only
    while no user is stored and leaves the entries alone. *)
Theorem serve_keeps_user_and_version (U : unicode_tables) (r : request) (w : disk) :
  let stored := loadSlangData U w in
  snd (serve U r w) = w
  \/ exists d',
       snd (serve U r w) = saveSlangData d' w
       /\ Version d' = Version stored
       /\ (User_ d' = User_ stored
           \/ (Username (User_ stored) = "" /\ Entries d' = Entries stored)).
Proof.
  intros stored. unfold serve.
  destruct (String.eqb (Path r) "/api/entries").
  { destruct (String.eqb (Method r) "GET"); [now left|].
    destruct (String.eqb (Method r) "POST"); [|now left].
    unfold handleAddEntry. fold stored. repeat branch; cbn [fst snd]; auto.
    right. eexists. split; [reflexivity|]. cbn. auto. }
  destruct (String.prefix "/api/entries/" (Path r)).
  { destruct (String.eqb (Method r) "DELETE"); [|now left].
    unfold handleDeleteEntry. fold stored. repeat branch; cbn [fst snd]; auto.
    right. eexists. split; [reflexivity|]. cbn. auto. }
  destruct (String.eqb (Path r) "/api/user");
    [unfold handleGetUser; branch; now left|].
  destruct (String.eqb (Path r) "/api/register").
  { unfold handleRegister. fold stored.
    destruct (readJSON_req U r) as [req|]; [|now left].
    destruct (_ || _); [now left|].
    destruct (String.eqb_spec (Username (User_ stored)) "") as [He|]; [|now left].
    cbn [negb snd]. right. eexists. split; [reflexivity|]. cbn. auto. }
  destruct (String.eqb (Path r) "/api/login"); [|now left].
  unfold handleLogin. repeat branch; cbn [fst snd]; auto.
Qed.

(** ** What a save leaves for the next load *)

Section ReadBack.
Variable U : unicode_tables.
Variable strict : bool.

Lemma traverse_image {A B C : Type} (enc : A -> B) (dec : B -> option C)
    (image : A -> C) (l : list A) :
  (forall x, dec (enc x) = Some (image x)) ->
  jsonpkg.traverse dec (map enc l) = Some (map image l).
Proof.
  intros Hdec. induction l as [|x l IH]; [reflexivity|].
  cbn [map jsonpkg.traverse]. now rewrite Hdec, IH.
Qed.

Lemma dec_enc_user_image (u cur : User) :
  jsonpkg.dec_user U strict (jsonpkg.enc_user u) cur
  = Some {| Username := jsonpkg.coerce (Username u);
            Password := jsonpkg.coerce (Password u) |}.
Proof.
  unfold jsonpkg.dec_user, jsonpkg.enc_user, jsonpkg.dec_struct.
  cbn [jsonpkg.dec_fields].
  rewrite !field_of_exact by (cbn; tauto).
  reflexivity.
Qed.

Lemma dec_enc_entry_image (e : SlangEntry) :
  jsonpkg.dec_entry U strict (jsonpkg.enc_entry e) zero_entry
  = Some (read_back_entry e).
Proof.
  destruct e as [w m x o syn].
  unfold jsonpkg.dec_entry, jsonpkg.enc_entry, jsonpkg.dec_struct, read_back_entry.
  cbn [Word Meaning Example Origin Synonyms app jsonpkg.dec_fields].
  rewrite !field_of_exact by (cbn; tauto).
  unfold jsonpkg.set_entry_field at 1 2 3.
  change (String.eqb "word" "word") with true.
  change (String.eqb "meaning" "word") with false.
  change (String.eqb "meaning" "meaning") with true.
  change (String.eqb "example" "word") with false.
  change (String.eqb "example" "meaning") with false.
  change (String.eqb "example" "example") with true.
  cbv iota. unfold jsonpkg.enc_string at 1 2 3.
  cbn [jsonpkg.dec_string option_map Word Meaning Example Origin Synonyms].
  assert (Hsyn : forall o',
             jsonpkg.dec_fields U strict jsonpkg.entry_fields (jsonpkg.set_entry_field)
               match elems syn with
               | [] => []
               | _ :: _ => [("synonyms", jsonpkg.enc_strings syn)]
               end
               {| Word := jsonpkg.coerce w; Meaning := jsonpkg.coerce m;
                  Example := jsonpkg.coerce x; Origin := o'; Synonyms := None |}
             = Some {| Word := jsonpkg.coerce w; Meaning := jsonpkg.coerce m;
                       Example := jsonpkg.coerce x; Origin := o';
                       Synonyms := match elems syn with
                                   | [] => None
                                   | l => Some (map jsonpkg.coerce l)
                                   end |}).
  { intros o'. destruct syn as [[|s l]|]; cbn [elems]; try reflexivity.
    cbn [jsonpkg.dec_fields].
    rewrite field_of_exact by (cbn; tauto).
    unfold jsonpkg.set_entry_field.
    change (String.eqb "synonyms" "word") with false.
    change (String.eqb "synonyms" "meaning") with false.
    change (String.eqb "synonyms" "example") with false.
    change (String.eqb "synonyms" "origin") with false.
    cbv iota. unfold jsonpkg.enc_strings, jsonpkg.dec_strings.
    rewrite (traverse_image jsonpkg.enc_string (fun j => jsonpkg.dec_string j "")
               jsonpkg.coerce (s :: l) (fun y => eq_refl)).
    reflexivity. }
  destruct (String.eqb_spec o "") as [->|Hne].
  - cbn [app]. apply Hsyn.
  - cbn [app jsonpkg.dec_fields].
    rewrite field_of_exact by (cbn; tauto).
    unfold jsonpkg.set_entry_field at 1.
    change (String.eqb "origin" "word") with false.
    change (String.eqb "origin" "meaning") with false.
    change (String.eqb "origin" "example") with false.
    change (String.eqb "origin" "origin") with true.
    cbv iota. unfold jsonpkg.enc_string at 1.
    cbn [jsonpkg.dec_string option_map Word Meaning Example Origin Synonyms].
    apply Hsyn.
Qed.

Lemma dec_enc_data_image (d : SlangData) :
  jsonpkg.dec_data U strict (jsonpkg.Marshal d) zero_data = Some (read_back d).
Proof.
  destruct d as [u v l].
  unfold jsonpkg.dec_data, jsonpkg.Marshal, jsonpkg.dec_struct, read_back.
  cbn [User_ Version Entries jsonpkg.dec_fields].
  rewrite !field_of_exact by (cbn; tauto).
  unfold jsonpkg.set_data_field.
  change (String.eqb "user" "user") with true.
  change (String.eqb "version" "user") with false.
  change (String.eqb "version" "version") with true.
  change (String.eqb "entries" "user") with false.
  change (String.eqb "entries" "version") with false.
  cbv iota.
  rewrite dec_enc_user_image. cbn [option_map set_User User_ Version Entries].
  unfold jsonpkg.enc_string at 1.
  cbn [jsonpkg.dec_string option_map set_User User_ Version Entries].
  destruct l as [l|]; [|reflexivity].
  unfold jsonpkg.enc_entries, jsonpkg.dec_entries.
  rewrite (traverse_image jsonpkg.enc_entry
             (fun j => jsonpkg.dec_entry U strict j zero_entry) read_back_entry l
             dec_enc_entry_image).
  reflexivity.
Qed.

End ReadBack.

(** X6. A load that follows a save never falls back to the default document:
    it returns the saved document with every string coerced to valid UTF-8
    and every empty synonyms slice made nil.  The number and the order of the
    entries are those of the saved document. *)
Theorem load_after_save (U : unicode_tables) (d : SlangData) (w : disk) :
  loadSlangData U (saveSlangData d w) = read_back d
  /\ len (Entries (loadSlangData U (saveSlangData d w))) = len (Entries d)
  /\ (forall k e, nth_error (elems (Entries d)) k = Some e ->
        nth_error (elems (Entries (loadSlangData U (saveSlangData d w)))) k
        = Some (read_back_entry e)).
Proof.
  assert (H : loadSlangData U (saveSlangData d w) = read_back d).
  { unfold saveSlangData, loadSlangData, jsonpkg.Unmarshal.
    now rewrite dec_enc_data_image. }
  rewrite H. split; [reflexivity|]. unfold read_back, len. cbn [Entries].
  destruct (Entries d) as [l|]; cbn [option_map elems].
  - split; [now rewrite length_map|].
    intros k e Hk. now rewrite nth_error_map, Hk.
  - split; [reflexivity|]. intros [|k] e; discriminate.
Qed.

(** ** Requests in sequence *)





Lemma load_read_back (U : unicode_tables) (d : SlangData) (w : disk) :
  loadSlangData U (saveSlangData d w) = read_back d.
Proof.
  unfold saveSlangData, loadSlangData, jsonpkg.Unmarshal.
  now rewrite dec_enc_data_image.
Qed.






(** X10. When the file is missing, is not JSON, or is JSON that does not
    decode into the document, a valid POST /api/entries answers 201 and saves
    a fresh document (no user, version 1.0) holding only the new entry, in
    place of what the file held. *)
Theorem add_over_undecodable_file (U : unicode_tables) (r : request) (w : disk)
    (entry : SlangEntry) :
  (w = NoFile \/ w = NotJSON
   \/ exists j, w = Holds j /\ jsonpkg.Unmarshal U j = None) ->
  readJSON_entry U r = Some entry ->
  strings.TrimSpace (Word entry) <> "" ->
  strings.TrimSpace (Meaning entry) <> "" ->
  handleAddEntry U r w
  = (respondJSON StatusCreated (message "Слово добавлено"),
     saveSlangData {| User_ := zero_user; Version := "1.0"; Entries := Some [entry] |} w).
Proof.
  intros Hw Hbody Hword Hm.
  assert (Hload : loadSlangData U w = default_data).
  { destruct Hw as [->|[->|(j & -> & Hj)]]; try reflexivity.
    unfold loadSlangData. now rewrite Hj. }
  rewrite (proj1 (handleAddEntry_cases U r w) entry Hbody Hword Hm);
    rewrite Hload; reflexivity.
Qed.

Lemma add_over_undecodable_file_witness :
  handleAddEntry ascii_tables (post "/api/entries" (json_of_entry "yeet" "to throw"))
    mistyped_disk
  = (respondJSON StatusCreated (message "Слово добавлено"),
     saveSlangData {| User_ := zero_user; Version := "1.0"; Entries := Some [yeet] |}
       mistyped_disk).
Proof.
  refine (add_over_undecodable_file ascii_tables
            (post "/api/entries" (json_of_entry "yeet" "to throw")) mistyped_disk yeet
            _ eq_refl _ _).
  - right; right. eexists. split; reflexivity.
  - vm_compute. discriminate.
  - vm_compute. discriminate.
Defined.

(** ** The console *)

Lemma register_cases (U : unicode_tables) (stdin : list string) (w : disk) :
  let stored := loadSlangData U w in
  let username := strings.TrimSpace (fst (ReadString stdin)) in
  let stdin1 := snd (ReadString stdin) in
  let password := strings.TrimSpace (fst (ReadString stdin1)) in
  let stdin2 := snd (ReadString stdin1) in
  Username (User_ stored) = "" ->
  (username = "" -> register U stdin w = (false, stdin1, w, [EmptyLogin]))
  /\ (username <> "" -> Z.of_nat (String.length password) < 4 ->
      register U stdin w = (false, stdin2, w, [ShortPassword]))
  /\ (username <> "" -> 4 <= Z.of_nat (String.length password) ->
      register U stdin w
      = (true, stdin2,
         saveSlangData (set_User stored {| Username := username; Password := password |}) w,
         [Registered username])).
Proof.
  intros stored username stdin1 password stdin2 Hfree.
  unfold register. fold stored. rewrite Hfree. cbn [String.eqb negb].
  subst username stdin1 password stdin2.
  destruct (ReadString stdin) as [l1 s1]. cbn [fst snd].
  destruct (String.eqb_spec (strings.TrimSpace l1) "") as [He|He].
  { repeat split; congruence. }
  destruct (ReadString s1) as [l2 s2]. cbn [fst snd].
  destruct (Z.ltb_spec (Z.of_nat (String.length (strings.TrimSpace l2))) 4).
  - repeat split; try congruence; intros; lia.
  - repeat split; try congruence; intros; lia.
Qed.

(** X11. The console registration on a store without a user refuses a name
    that trims to nothing and a password that trims to fewer than four
    bytes, saving nothing in either case.  Otherwise it succeeds and saves
    the loaded document with the trimmed name and password as its user. *)
Theorem register_at_console (U : unicode_tables) (stdin : list string) (w : disk) :
  let stored := loadSlangData U w in
  let username := strings.TrimSpace (fst (ReadString stdin)) in
  let password := strings.TrimSpace (fst (ReadString (snd (ReadString stdin)))) in
  let result := register U stdin w in
  Username (User_ stored) = "" ->
  (username = "" ->
   fst (fst (fst result)) = false /\ snd (fst result) = w /\ snd result = [EmptyLogin])
  /\ (username <> "" -> Z.of_nat (String.length password) < 4 ->
      fst (fst (fst result)) = false /\ snd (fst result) = w
      /\ snd result = [ShortPassword])
  /\ (username <> "" -> 4 <= Z.of_nat (String.length password) ->
      fst (fst (fst result)) = true
      /\ snd (fst result)
         = saveSlangData
             (set_User stored {| Username := username; Password := password |}) w
      /\ snd result = [Registered username]).
Proof.
  intros stored username password result Hfree.
  destruct (register_cases U stdin w Hfree) as (He & Hs & Hok).
  fold stored username password in He, Hs, Hok. subst result.
  split; [|split].
  - intros H. now rewrite (He H).
  - intros H1 H2. now rewrite (Hs H1 H2).
  - intros H1 H2. now rewrite (Hok H1 H2).
Qed.

Lemma register_at_console_witness :
  fst (fst (fst (register ascii_tables [line " ann "; line "secr3t"] NoFile))) = true
  /\ snd (fst (register ascii_tables [line " ann "; line "secr3t"] NoFile))
     = saveSlangData (set_User default_data ann) NoFile
  /\ snd (register ascii_tables [line " ann "; line "secr3t"] NoFile) = [Registered "ann"].
Proof.
  refine (proj2 (proj2 (register_at_console ascii_tables
            [line " ann "; line "secr3t"] NoFile eq_refl)) _ _).
  - vm_compute. discriminate.
  - vm_compute. discriminate.
Defined.

(** X12. After a successful console registration in which the name and the
    password, as trimmed, are valid UTF-8, typing the same two lines at the
    console login succeeds at the first attempt, and a further console
    registration is refused as already registered. *)
Theorem login_after_console_register (U : unicode_tables)
    (name_line password_line : string) (rest later : list string) (w : disk) :
  let stored := loadSlangData U w in
  let username := strings.TrimSpace name_line in
  let password := strings.TrimSpace password_line in
  Username (User_ stored) = "" ->
  username <> "" -> 4 <= Z.of_nat (String.length password) ->
  utf8.ValidString username = true -> utf8.ValidString password = true ->
  let w' := snd (fst (register U (name_line :: password_line :: rest) w)) in
  fst (fst (login U (name_line :: password_line :: later) w')) = true
  /\ snd (login U (name_line :: password_line :: later) w')
     = [Welcome username (len (Entries stored))]
  /\ fst (fst (fst (register U later w'))) = false
  /\ snd (fst (register U later w')) = w'
  /\ snd (register U later w') = [AlreadyRegistered].
Proof.
  intros stored username password Hfree Hname Hpw Hvn Hvp.
  rewrite (proj2 (proj2 (register_cases U (name_line :: password_line :: rest) w Hfree))
             Hname Hpw).
  cbn [fst snd ReadString]. fold stored username password.
  set (d1 := set_User stored {| Username := username; Password := password |}).
  apply String.eqb_neq in Hname.
  unfold login, register. rewrite (load_read_back U d1 w).
  unfold read_back, d1, set_User. cbn [User_ Version Entries Username Password].
  rewrite (coerce_valid _ Hvn), (coerce_valid _ Hvp), Hname. cbn [negb fst snd].
  cbn [login_loop ReadString]. fold username password.
  rewrite !String.eqb_refl. cbn [andb fst snd].
  repeat split.
  unfold len. cbn [Entries]. destruct (Entries stored); cbn [option_map elems];
    [now rewrite length_map | reflexivity].
Qed.

Lemma login_after_console_register_witness :
  fst (fst (login ascii_tables [line " ann "; line "secr3t"]
              (snd (fst (register ascii_tables [line " ann "; line "secr3t"] NoFile)))))
  = true.
Proof.
  refine (proj1 (login_after_console_register ascii_tables (line " ann ") (line "secr3t")
            [] [] NoFile eq_refl _ _ eq_refl eq_refl)).
  - vm_compute. discriminate.
  - vm_compute. discriminate.
Defined.

Lemma Split_comma_nonempty (p : list Z) : strings.Split_comma p <> [].
Proof.
  destruct p as [|c p]; cbn [strings.Split_comma]; [discriminate|].
  destruct (c =? 44); [discriminate|].
  destruct (strings.Split_comma p); discriminate.
Qed.

(** X13. A console add that is not refused writes the document it holds in
    memory with the new entry at the end, whatever the file holds at that
    moment: entries that reached the file since that document was loaded are
    gone after the write.  The new entry has the trimmed first line as its
    word, and its synonyms are nil or not empty. *)
Theorem console_add_writes_its_snapshot (U : unicode_tables) (slangData : SlangData)
    (stdin : list string) (w : disk) :
  let result := addNewEntry U slangData stdin w in
  let d' := fst (fst (fst result)) in
  let w' := snd (fst result) in
  word_exists U (Entries slangData) (strings.TrimSpace (fst (ReadString stdin))) = false ->
  w' = saveSlangData d' w
  /\ (exists entry,
        Entries d' = Some (elems (Entries slangData) ++ [entry])
        /\ Word entry = strings.TrimSpace (fst (ReadString stdin))
        /\ Synonyms entry <> Some [])
  /\ User_ d' = User_ slangData /\ Version d' = Version slangData
  /\ (stable_data d' = true ->
      loadSlangData U w' = d'
      /\ forall e, In e (elems (Entries (loadSlangData U w))) ->
                   ~ In e (elems (Entries d')) ->
                   ~ In e (elems (Entries (loadSlangData U w')))).
Proof.
  intros result d' w'. subst result d' w'. unfold addNewEntry.
  destruct (ReadString stdin) as [word stdin1]. cbn [fst snd]. intros Hnew.
  rewrite Hnew.
  destruct (ReadString stdin1) as [meaning stdin2].
  destruct (ReadString stdin2) as [example stdin3].
  destruct (ReadString stdin3) as [origin stdin4].
  destruct (ReadString stdin4) as [synonyms stdin5].
  cbn [fst snd]. split; [reflexivity|]. split; [|split; [reflexivity|split; [reflexivity|]]].
  - eexists. split; [reflexivity|]. cbn [Word Synonyms]. split; [reflexivity|].
    destruct (String.eqb (strings.TrimSpace synonyms) ""); [discriminate|].
    unfold strings.Split. intros [= H].
    apply map_eq_nil in H. apply map_eq_nil in H.
    exact (Split_comma_nonempty _ H).
  - intros Hst. rewrite (load_save U _ w Hst). split; [reflexivity|].
    intros e _ Hnot. exact Hnot.
Qed.

Lemma console_add_writes_its_snapshot_witness :
  loadSlangData ascii_tables
    (snd (fst (addNewEntry ascii_tables sample_data
                 [line "yeet"; line "to throw"; line ""; line ""; line ""]
                 (saveSlangData
                    (set_Entries sample_data (Some [rizz; sus; spaced_rizz])) NoFile))))
  = set_Entries sample_data (Some [rizz; sus; yeet]).
Proof.
  refine (proj1 (proj2 (proj2 (proj2 (proj2
            (console_add_writes_its_snapshot ascii_tables sample_data
               [line "yeet"; line "to throw"; line ""; line ""; line ""]
               (saveSlangData
                  (set_Entries sample_data (Some [rizz; sus; spaced_rizz])) NoFile)
               eq_refl)))) eq_refl)).
Defined.

(** ** Members the structs do not have *)

Lemma dec_fields_strict_unknown (U : unicode_tables) {T : Type} (names : list string)
    (set : string -> json -> T -> option T) (fields : list (string * json))
    (k : string) (v : json) :
  In (k, v) fields -> jsonpkg.field_of U names k = None ->
  forall cur, jsonpkg.dec_fields U true names set fields cur = None.
Proof.
  intros Hin Hk. induction fields as [|[k' v'] fields IH]; [destruct Hin|].
  intros cur. cbn [jsonpkg.dec_fields].
  destruct Hin as [[= -> ->]|Hin].
  - now rewrite Hk.
  - destruct (jsonpkg.field_of U names k'); [|reflexivity].
    destruct (set s v' cur); [now apply IH | reflexivity].
Qed.

(** X14. A request body with a member that matches no field of the expected
    struct is answered 400 "Неверный JSON" by the add, register and login
    handlers, and nothing is written. *)
Theorem unknown_member_is_bad_request (U : unicode_tables) (r : request) (w : disk)
    (fields : list (string * json)) (k : string) (v : json) :
  Body r = Some (JObject fields) -> In (k, v) fields ->
  (jsonpkg.field_of U jsonpkg.entry_fields k = None ->
   handleAddEntry U r w = (httpError "Неверный JSON" StatusBadRequest, w))
  /\ (jsonpkg.field_of U jsonpkg.user_fields k = None ->
      handleRegister U r w = (httpError "Неверный JSON" StatusBadRequest, w)
      /\ handleLogin U r w = (httpError "Неверный JSON" StatusBadRequest, w)).
Proof.
  intros Hbody Hin. split.
  - intros Hk. unfold handleAddEntry, readJSON_entry. rewrite Hbody.
    unfold jsonpkg.dec_entry, jsonpkg.dec_struct.
    now rewrite (dec_fields_strict_unknown U _ _ fields k v Hin Hk).
  - intros Hk. unfold handleRegister, handleLogin, readJSON_req. rewrite Hbody.
    unfold jsonpkg.dec_user, jsonpkg.dec_struct.
    now rewrite (dec_fields_strict_unknown U _ _ fields k v Hin Hk).
Qed.

Lemma unknown_member_is_bad_request_witness :
  handleAddEntry ascii_tables
    (post "/api/entries"
       (JObject [("word", JString "yeet"); ("meaning", JString "to throw");
                 ("id", JNumber "7")])) sample_disk
  = (httpError "Неверный JSON" StatusBadRequest, sample_disk).
Proof.
  refine (proj1 (unknown_member_is_bad_request ascii_tables
            (post "/api/entries"
               (JObject [("word", JString "yeet"); ("meaning", JString "to throw");
                         ("id", JNumber "7")])) sample_disk
            [("word", JString "yeet"); ("meaning", JString "to throw");
             ("id", JNumber "7")] "id" (JNumber "7") eq_refl _) eq_refl).
  right; right; left. reflexivity.
Defined.

Lemma dec_fields_known (U : unicode_tables) {T : Type} (names : list string)
    (set : string -> json -> T -> option T) (fields : list (string * json)) :
  forall cur,
    jsonpkg.dec_fields U false names set fields cur
    = jsonpkg.dec_fields U false names set (known_members U names fields) cur.
Proof.
  induction fields as [|[k v] fields IH]; intros cur; [reflexivity|].
  cbn [jsonpkg.dec_fields known_members filter fst].
  destruct (jsonpkg.field_of U names k) as [n|] eqn:Hk.
  - cbn [jsonpkg.dec_fields]. rewrite Hk.
    destruct (set n v cur); [apply IH | reflexivity].
  - apply IH.
Qed.

(** X15. [loadSlangData], unlike the request handlers, ignores members of the
    file's top-level object that match no field: the file loads as it would
    without them. *)
Theorem load_ignores_unknown_members (U : unicode_tables)
    (fields : list (string * json)) :
  loadSlangData U (Holds (JObject fields))
  = loadSlangData U (Holds (JObject (known_members U jsonpkg.data_fields fields))).
Proof.
  unfold loadSlangData, jsonpkg.Unmarshal, jsonpkg.dec_data, jsonpkg.dec_struct.
  now rewrite dec_fields_known.
Qed.

(** ** What trimming leaves *)

Lemma byte_of_range (a : ascii) : 0 <= byte_of a < 256.
Proof.
  unfold byte_of. pose proof (N_ascii_bounded a). lia.
Qed.

Lemma bytes_range (s : string) (b : Z) : In b (bytes s) -> 0 <= b < 256.
Proof.
  unfold bytes. intros H. apply in_map_iff in H as (a & <- & _). apply byte_of_range.
Qed.

Lemma byte_of_ascii_of (b : Z) : 0 <= b < 256 -> byte_of (ascii_of b) = b.
Proof.
  intros H. unfold byte_of, ascii_of.
  rewrite N_ascii_embedding by lia. lia.
Qed.


Lemma TrimSpace_scan_suffix (p : list Z) :
  exists pre, p = pre ++ snd (strings.TrimSpace_scan p).
Proof.
  induction p as [|c p IH]; [now exists []|].
  cbn [strings.TrimSpace_scan].
  destruct (utf8.RuneSelf <=? c); [now exists []|].
  destruct (strings.asciiSpace c); [|now exists []].
  destruct IH as [pre IH]. exists (c :: pre). cbn [app]. now rewrite <- IH.
Qed.

Lemma asciiSpace_low (c : Z) : strings.asciiSpace c = true -> c < utf8.RuneSelf.
Proof.
  unfold strings.asciiSpace, utf8.RuneSelf. rewrite !orb_true_iff, !Z.eqb_eq. lia.
Qed.

Lemma TrimSpace_scan_head (p : list Z) :
  head_not_blank (snd (strings.TrimSpace_scan p)).
Proof.
  induction p as [|c p IH]; [exact I|].
  cbn [strings.TrimSpace_scan].
  destruct (Z.leb_spec utf8.RuneSelf c) as [Hhi|Hlo].
  - cbn. destruct (strings.asciiSpace c) eqn:E; [|reflexivity].
    apply asciiSpace_low in E. lia.
  - destruct (strings.asciiSpace c) eqn:E; [exact IH | exact E].
Qed.

Lemma TrimLeftSpace_head (fuel : nat) :
  forall p, (List.length p <= fuel)%nat ->
  head_not_blank (strings.TrimLeftSpace fuel p).
Proof.
  induction fuel as [|fuel IH]; intros p Hlen.
  - destruct p; [exact I | cbn in Hlen; lia].
  - destruct p as [|c p]; [exact I|].
    cbn [strings.TrimLeftSpace].
    pose proof (DecodeRune_width c p) as Hw.
    destruct (utf8.DecodeRune (c :: p)) as [r n] eqn:E. cbn [snd] in Hw.
    destruct (strings.IsSpace r) eqn:Hr.
    + apply IH. rewrite length_skipn. cbn [List.length] in *. lia.
    + cbn. destruct (strings.asciiSpace c) eqn:Hc; [|reflexivity].
      assert (Hrc : r = c).
      { apply asciiSpace_low in Hc. unfold utf8.RuneSelf in Hc.
        unfold utf8.DecodeRune, utf8.lead in E.
        destruct (Z.ltb_spec c 128); [|lia]. now injection E as <- _. }
      subst r. unfold strings.IsSpace in Hr. rewrite Hc in Hr. discriminate.
Qed.

Lemma head_not_blank_firstn (n : nat) (p : list Z) :
  head_not_blank p -> head_not_blank (firstn n p).
Proof.
  destruct n, p; cbn; auto.
Qed.

Lemma TrimRightSpace_head (p : list Z) :
  head_not_blank p -> head_not_blank (strings.TrimRightSpace p).
Proof.
  intros H. unfold strings.TrimRightSpace.
  destruct (strings.lastIndexNotSpace _ _ _); [|exact I].
  now apply head_not_blank_firstn.
Qed.

Lemma head_not_blank_prefix (q rq pre : list Z) :
  rev q = pre ++ rq -> head_not_blank q -> head_not_blank (rev rq).
Proof.
  intros Hq Hh.
  assert (Hq' : q = rev rq ++ rev pre).
  { rewrite <- (rev_involutive q), Hq, rev_app_distr. reflexivity. }
  destruct (rev rq) as [|b l]; [exact I|].
  rewrite Hq' in Hh. exact Hh.
Qed.

Lemma TrimSpace_bytes_head (p : list Z) : head_not_blank (strings.TrimSpace_bytes p).
Proof.
  unfold strings.TrimSpace_bytes.
  pose proof (TrimSpace_scan_head p) as Hq.
  destruct (strings.TrimSpace_scan p) as [uni q]. cbn [snd] in Hq.
  destruct uni.
  - apply TrimRightSpace_head, TrimLeftSpace_head. lia.
  - destruct (TrimSpace_scan_suffix (rev q)) as [pre Hpre].
    destruct (strings.TrimSpace_scan (rev q)) as [uni' rq]. cbn [snd] in Hpre.
    pose proof (head_not_blank_prefix q rq pre Hpre Hq) as Hr.
    destruct uni'; [now apply TrimRightSpace_head | exact Hr].
Qed.

Lemma incl_firstn {A : Type} (n : nat) (l : list A) : incl (firstn n l) l.
Proof.
  intros x Hx. rewrite <- (firstn_skipn n l). apply in_or_app. now left.
Qed.

Lemma incl_skipn {A : Type} (n : nat) (l : list A) : incl (skipn n l) l.
Proof.
  intros x Hx. rewrite <- (firstn_skipn n l). apply in_or_app. now right.
Qed.

Lemma TrimLeftSpace_incl (fuel : nat) : forall p, incl (strings.TrimLeftSpace fuel p) p.
Proof.
  induction fuel as [|fuel IH]; intros p; [destruct p; apply incl_refl|].
  destruct p as [|c p]; [apply incl_refl|].
  cbn [strings.TrimLeftSpace].
  destruct (utf8.DecodeRune (c :: p)) as [r n].
  destruct (strings.IsSpace r); [|apply incl_refl].
  eapply incl_tran; [apply IH | apply incl_skipn].
Qed.

Lemma TrimRightSpace_incl (p : list Z) : incl (strings.TrimRightSpace p) p.
Proof.
  unfold strings.TrimRightSpace.
  destruct (strings.lastIndexNotSpace _ _ _); [apply incl_firstn | intros x []].
Qed.

Lemma TrimSpace_bytes_incl (p : list Z) : incl (strings.TrimSpace_bytes p) p.
Proof.
  unfold strings.TrimSpace_bytes.
  destruct (TrimSpace_scan_suffix p) as [pre Hpre].
  destruct (strings.TrimSpace_scan p) as [uni q]. cbn [snd] in Hpre.
  assert (Hq : incl q p) by (intros x Hx; rewrite Hpre; apply in_or_app; now right).
  destruct uni.
  - eapply incl_tran; [apply TrimRightSpace_incl|].
    eapply incl_tran; [apply TrimLeftSpace_incl | exact Hq].
  - destruct (TrimSpace_scan_suffix (rev q)) as [pre' Hpre'].
    destruct (strings.TrimSpace_scan (rev q)) as [uni' rq]. cbn [snd] in Hpre'.
    assert (Hr : incl (rev rq) q).
    { intros x Hx. apply in_rev in Hx. apply in_rev. rewrite Hpre'.
      apply in_or_app. now right. }
    destruct uni'.
    + eapply incl_tran; [apply TrimRightSpace_incl|].
      eapply incl_tran; [exact Hr | exact Hq].
    + eapply incl_tran; [exact Hr | exact Hq].
Qed.

Lemma TrimSpace_no_leading_blank (s tail : string) :
  strings.TrimSpace s <> String " "%char tail.
Proof.
  unfold strings.TrimSpace. intros H.
  pose proof (TrimSpace_bytes_head (bytes s)) as Hh.
  pose proof (TrimSpace_bytes_incl (bytes s)) as Hin.
  destruct (strings.TrimSpace_bytes (bytes s)) as [|b l]; [discriminate H|].
  cbn [str map string_of_list_ascii] in H. injection H as Hb _.
  cbn in Hh.
  assert (Hrange : 0 <= b < 256) by (apply (bytes_range s), Hin; now left).
  assert (Hblank : strings.asciiSpace (byte_of (ascii_of b)) = true) by now rewrite Hb.
  rewrite byte_of_ascii_of in Hblank by exact Hrange. congruence.
Qed.

(** X16. The console login trims what is typed, so it never succeeds when the
    stored name or password begins with a blank, which POST /api/register
    accepts untrimmed. *)
Theorem console_login_trims (U : unicode_tables) (stdin : list string) (w : disk)
    (tail : string) :
  let stored := User_ (loadSlangData U w) in
  Username stored = String " "%char tail \/ Password stored = String " "%char tail ->
  fst (fst (login U stdin w)) = false.
Proof.
  intros stored Hblank. apply not_true_is_false. intros Hok.
  unfold login in Hok. fold stored in Hok.
  destruct (String.eqb (Username stored) ""); [discriminate Hok|].
  apply login_loop_ok in Hok as (k & _ & Hatt).
  unfold attempt in Hatt. fold stored in Hatt. injection Hatt as Hn Hp.
  destruct Hblank as [Hb|Hb]; rewrite Hb in *;
    eapply TrimSpace_no_leading_blank; eassumption.
Qed.

Lemma console_login_trims_witness :
  fst (fst (login ascii_tables [line " ann"; line "secr3t"]
              (snd (handleRegister ascii_tables
                      (post "/api/register" (json_of_credentials " ann" "secr3t"))
                      NoFile)))) = false.
Proof.
  apply (console_login_trims ascii_tables [line " ann"; line "secr3t"]
           (snd (handleRegister ascii_tables
                   (post "/api/register" (json_of_credentials " ann" "secr3t")) NoFile))
           "ann").
  left. reflexivity.
Defined.

(** ** A number too large for an index *)

Lemma digits_are_digits (p : list Z) :
  forall acc n, strconv.digits acc p = Some n -> forallb (between 48 57) p = true.
Proof.
  induction p as [|c p IH]; intros acc n H; [reflexivity|].
  cbn [strconv.digits forallb] in *.
  destruct (between 48 57 c); [|discriminate]. exact (IH _ _ H).
Qed.

(** X17. A DELETE whose path segment is a run of digits denoting a number
    above the largest [int] is answered with the bad-index 400, not the 404,
    and nothing is written. *)
Theorem delete_index_out_of_int_range (U : unicode_tables) (r : request) (w : disk)
    (n : Z) :
  strconv.digits 0 (bytes (strings.TrimPrefix (Path r) "/api/entries/")) = Some n ->
  2 ^ 63 <= n ->
  handleDeleteEntry U r w = (httpError "Неверный индекс" StatusBadRequest, w).
Proof.
  intros Hd Hn. unfold handleDeleteEntry, strconv.Atoi.
  set (p := bytes (strings.TrimPrefix (Path r) "/api/entries/")) in *.
  assert (Hs : strconv.sign_split p = (false, p)).
  { pose proof (digits_are_digits p 0 n Hd) as Hall.
    destruct p as [|c p']; [reflexivity|].
    cbn [forallb] in Hall. apply andb_true_iff in Hall as [Hc _].
    unfold between in Hc. apply andb_true_iff in Hc as [Hlo Hhi].
    apply Z.leb_le in Hlo, Hhi. unfold strconv.sign_split.
    destruct c as [|q|q]; try reflexivity.
    do 6 (destruct q as [q|q|]; try reflexivity); lia. }
  rewrite Hs.
  destruct p as [|c p']; [cbn in Hd; injection Hd as <-; lia|].
  rewrite Hd. unfold between.
  destruct (Z.leb_spec n (2 ^ 63 - 1)); [lia|].
  now rewrite andb_false_r.
Qed.

Lemma delete_index_out_of_int_range_witness :
  handleDeleteEntry ascii_tables (delete_request "9223372036854775808") sample_disk
  = (httpError "Неверный индекс" StatusBadRequest, sample_disk).
Proof.
  apply (delete_index_out_of_int_range ascii_tables
           (delete_request "9223372036854775808") sample_disk 9223372036854775808).
  - reflexivity.
  - vm_compute. discriminate.
Defined.

Lemma handleAddEntry_created_witness :
  handleAddEntry ascii_tables (post "/api/entries" (json_of_entry "yeet" "to throw"))
    sample_disk
  = (respondJSON StatusCreated (message "Слово добавлено"),
     saveSlangData (set_Entries sample_data (Some [rizz; sus; yeet])) sample_disk).
Proof.
  refine (proj1 (handleAddEntry_created ascii_tables
            (post "/api/entries" (json_of_entry "yeet" "to throw")) sample_disk)
            yeet eq_refl _ _ eq_refl).
  - vm_compute. discriminate.
  - vm_compute. discriminate.
Defined.

Lemma load_after_save_witness :
  nth_error
    (elems (Entries (loadSlangData ascii_tables
                       (saveSlangData
                          (set_Entries sample_data (Some [sus; rizz_no_synonyms])) NoFile))))
    1
  = Some rizz.
Proof.
  exact (proj2 (proj2 (load_after_save ascii_tables
                         (set_Entries sample_data (Some [sus; rizz_no_synonyms])) NoFile))
           1%nat rizz_no_synonyms eq_refl).
Defined.
